(** * Bedrock chat bot: a shallow embedding of [bedrock/bedrock_chatbot.py]

    The Streamlit script is a single render function ([main]) that is run
    again on every UI event, over a session dictionary that survives between
    runs.  The embedding follows the script top-down:

    - Python values that travel through the script (prompt payloads, content
      blocks, configuration values) are a small universe [PyVal];
    - [st.session_state] is a record of optional fields (a field is [None]
      while its key is absent from the dictionary);
    - a render is a computation in a state-and-exception monad over a
      [World] made of the session, the UI output produced so far and the log
      of calls made to the language model;
    - the collaborators that live outside the file (the configuration of
      [config.py], the [ChatModel] of [models.py], the model backend, the
      image decoder) are the variables of the section [Script]; what the
      user did before a run (widget values, uploads, prompt) is a record
      [Inputs]. *)

From Stdlib Require Import ZArith Floats.
From stdpp Require Import base option list strings pretty gmap.

Set Warnings "-register-all".
Local Open Scope Z_scope.
Local Open Scope string_scope.
Local Open Scope list_scope.

(** ** Python values *)

(** The values stored in message payloads and configuration records.
    [VDict] keeps the insertion order of a Python dict; [VMsg] is a LangChain
    message object ([AIMessage], [HumanMessage]) with its [type] and
    [content] attributes. *)
Inductive PyVal : Type :=
  | VNone
  | VBool (b : bool)
  | VInt (z : Z)
  | VFloat (f : float)
  | VStr (s : string)
  | VList (l : list PyVal)
  | VDict (d : list (string * PyVal))
  | VMsg (type : string) (content : PyVal).

(** The exceptions the script can let escape.  Nothing in the file catches
    an exception, so each of them ends the render. *)
Inductive Exn : Type :=
  | KeyError (key : string)
  | IndexError
  | TypeError
  | AttributeError (attr : string)
  | UnboundLocalError (var : string)
  | ValidationError
  | UnidentifiedImageError (file_id : string)
  | OSError (file_id : string)
  | BackendError (msg : string).

(** Result of an expression that can raise. *)
Inductive Res (A : Type) : Type :=
  | Ok (a : A)
  | Raise (e : Exn).
Arguments Ok {A} a.
Arguments Raise {A} e.

Definition res_bind {A B} (r : Res A) (k : A → Res B) : Res B :=
  match r with
  | Ok a => k a
  | Raise e => Raise e
  end.

(** Python truthiness, as used by [if x:] and [not x]. *)
Definition truthy (v : PyVal) : bool :=
  match v with
  | VNone => false
  | VBool b => b
  | VInt z => negb (z =? 0)%Z
  | VFloat f => negb (PrimFloat.is_zero f)
  | VStr s => negb (String.eqb s "")
  | VList l => match l with [] => false | _ => true end
  | VDict d => match d with [] => false | _ => true end
  | VMsg _ _ => true
  end.

(** Lookup in an insertion-ordered dict. *)
Fixpoint assoc {A} (k : string) (d : list (string * A)) : option A :=
  match d with
  | [] => None
  | (k', v) :: d' => if String.eqb k k' then Some v else assoc k d'
  end.

(** [s in t] on two strings: [s] occurs in [t]. *)
Fixpoint is_substring (s t : string) : bool :=
  String.prefix s t ||
  match t with
  | EmptyString => false
  | String _ t' => is_substring s t'
  end.

(** Shallow equality on the scalars that the [in] operator compares here. *)
Definition is_str (k : string) (v : PyVal) : bool :=
  match v with
  | VStr s => String.eqb k s
  | _ => false
  end.

(** [k in v] for a string [k]: key test on a dict, membership on a list,
    substring test on a string; the other values are not containers. *)
Definition py_contains (k : string) (v : PyVal) : Res bool :=
  match v with
  | VDict d => Ok (bool_decide (is_Some (assoc k d)))
  | VList l => Ok (existsb (is_str k) l)
  | VStr s => Ok (is_substring k s)
  | _ => Raise TypeError
  end.

(** [v[0]] *)
Definition py_first (v : PyVal) : Res PyVal :=
  match v with
  | VList [] => Raise IndexError
  | VList (x :: _) => Ok x
  | VStr s =>
      match s with
      | EmptyString => Raise IndexError
      | String a _ => Ok (VStr (String a EmptyString))
      end
  | VDict d =>
      (* a dict is subscripted by key; the integer 0 is never one of the
         string keys *)
      Raise (KeyError "0")
  | _ => Raise TypeError
  end.

(** [v[k]] for a string key [k]. *)
Definition py_item (k : string) (v : PyVal) : Res PyVal :=
  match v with
  | VDict d =>
      match assoc k d with
      | Some x => Ok x
      | None => Raise (KeyError k)
      end
  | _ => Raise TypeError
  end.

(** ** Configuration store ([config.py]) *)

(** One model's record: only [.get(key, default)] is used on it. *)
Abbreviation ModelConfig := (gmap string PyVal).

(** [config["models"]], in declaration order (the select box lists the keys
    in that order). *)
Definition Models := list (string * ModelConfig).

Definition config_get (mc : ModelConfig) (k : string) (dflt : PyVal) : PyVal :=
  match mc !! k with
  | Some v => v
  | None => dflt
  end.

(** ** Session state and messages *)

(** An entry of [st.session_state.messages]: a dict with keys ["role"],
    ["content"] and, for a user message that carried attachments,
    ["images"]. *)
Record Message : Type := mkMessage {
  role : string;
  content : PyVal;
  images : option (list string)
}.

Definition INIT_MESSAGE : Message :=
  {| role := "assistant";
     content := VStr "Hi! I'm your AI Bot on Bedrock. How may I help you?";
     images := None |}.

(** An entry of the memory log: a LangChain message. *)
Record LcMessage : Type := mkLc {
  lc_type : string;
  lc_content : PyVal
}.

(** [st.session_state]: a field is [None] while its key is absent. *)
Record SessionState : Type := mkSession {
  widget_key : option string;
  model_name : option string;
  messages : option (list Message);
  langchain_messages : option (list LcMessage);
  file_uploader_key : option Z
}.

Definition empty_session : SessionState :=
  {| widget_key := None; model_name := None; messages := None;
     langchain_messages := None; file_uploader_key := None |}.

(** ** The world of a render *)

(** What the script writes to the page, in order.  The page title and the
    sidebar chrome carry no state and are left out. *)
Inductive UiEvent : Type :=
  | UiChatMessage (who : string)            (* entering [st.chat_message(who)] *)
  | UiMarkdown (body : PyVal)               (* [st.markdown(body)] *)
  | UiImage (file_id : string) (col : nat)  (* [st.image] in column [col] *)
  | UiStream (text : string).               (* [container.markdown(text)] on the
                                               [st.empty()] placeholder *)

(** [ChatModel(model_name, model_kwargs)] of [models.py]: the object keeps
    what it was built from. *)
Record ChatModel : Type := mkChatModel {
  cm_model_name : option string;
  cm_model_kwargs : gmap string PyVal
}.

(** One call of the language model: the model it was built for and the
    messages it was shown. *)
Record LlmCall : Type := mkLlmCall {
  call_model : ChatModel;
  call_context : list LcMessage
}.

(** The session, what the script has written to the page so far (each run
    appends to it), and the calls made to the model so far. *)
Record World : Type := mkWorld {
  session : SessionState;
  ui : list UiEvent;
  llm_calls : list LlmCall
}.

(** ** The render monad: state and exceptions *)

Definition M (A : Type) : Type := World → Res A * World.

Definition ret {A} (a : A) : M A := fun w => (Ok a, w).

Definition bind {A B} (m : M A) (k : A → M B) : M B :=
  fun w =>
    match m w with
    | (Ok a, w') => k a w'
    | (Raise e, w') => (Raise e, w')
    end.

Definition raise {A} (e : Exn) : M A := fun w => (Raise e, w).

Definition lift {A} (r : Res A) : M A := fun w => (r, w).

Definition get_session : M SessionState := fun w => (Ok (session w), w).

Definition modify_session (f : SessionState → SessionState) : M unit :=
  fun w => (Ok tt, {| session := f (session w); ui := ui w; llm_calls := llm_calls w |}).

Definition emit (e : UiEvent) : M unit :=
  fun w => (Ok tt, {| session := session w; ui := ui w ++ [e]; llm_calls := llm_calls w |}).

Definition log_call (c : LlmCall) : M unit :=
  fun w => (Ok tt, {| session := session w; ui := ui w; llm_calls := llm_calls w ++ [c] |}).

(** The monad is registered with stdpp's [mret] and [mbind], which gives the
    notations [x ← m; k] and [m;; k]. *)
#[global] Instance M_ret : MRet M := @ret.
#[global] Instance M_bind : MBind M := fun A B k m => bind m k.

(** [for x in xs: body x] *)
Fixpoint for_each {A} (xs : list A) (body : A → M unit) : M unit :=
  match xs with
  | [] => ret tt
  | x :: xs' => body x;; for_each xs' body
  end.

(** Field updates of the session dictionary. *)
Definition set_widget_key (v : option string) (s : SessionState) : SessionState :=
  {| widget_key := v; model_name := model_name s; messages := messages s;
     langchain_messages := langchain_messages s;
     file_uploader_key := file_uploader_key s |}.

Definition set_model_name (v : option string) (s : SessionState) : SessionState :=
  {| widget_key := widget_key s; model_name := v; messages := messages s;
     langchain_messages := langchain_messages s;
     file_uploader_key := file_uploader_key s |}.

Definition set_messages (v : option (list Message)) (s : SessionState) : SessionState :=
  {| widget_key := widget_key s; model_name := model_name s; messages := v;
     langchain_messages := langchain_messages s;
     file_uploader_key := file_uploader_key s |}.

Definition set_langchain_messages (v : option (list LcMessage)) (s : SessionState)
  : SessionState :=
  {| widget_key := widget_key s; model_name := model_name s; messages := messages s;
     langchain_messages := v;
     file_uploader_key := file_uploader_key s |}.

Definition set_file_uploader_key (v : option Z) (s : SessionState) : SessionState :=
  {| widget_key := widget_key s; model_name := model_name s; messages := messages s;
     langchain_messages := langchain_messages s;
     file_uploader_key := v |}.

(** [st.session_state.messages], an [AttributeError] while the key is
    absent. *)
Definition read_messages : M (list Message) :=
  s ← get_session;
  match messages s with
  | Some ms => ret ms
  | None => raise (AttributeError "messages")
  end.

(** [st.session_state["langchain_messages"]] *)
Definition read_langchain_messages : M (list LcMessage) :=
  s ← get_session;
  match langchain_messages s with
  | Some ms => ret ms
  | None => raise (KeyError "langchain_messages")
  end.

(** [st.session_state['widget_key']] *)
Definition read_widget_key : M string :=
  s ← get_session;
  match widget_key s with
  | Some k => ret k
  | None => raise (KeyError "widget_key")
  end.

(** [st.session_state.messages.append(m)] *)
Definition append_message (m : Message) : M unit :=
  ms ← read_messages;
  modify_session (set_messages (Some (ms ++ [m]))).

(** ** Widgets

    A widget returns its live value: what the user last entered, or the
    [value=] default while the user has not touched it.  The range and step
    checks of the toolkit's sliders are not part of this script. *)
Record Widgets : Type := mkWidgets {
  w_model : option string;
  w_system_prompt : option string;
  w_temperature : option PyVal;
  w_top_p : option PyVal;
  w_top_k : option PyVal;
  w_max_tokens : option PyVal;
  w_memory_window : option PyVal
}.

Definition untouched : Widgets :=
  {| w_model := None; w_system_prompt := None; w_temperature := None;
     w_top_p := None; w_top_k := None; w_max_tokens := None;
     w_memory_window := None |}.

(** [st.selectbox(label, options)]: the selection, by default the first
    option, Python's [None] when there is no option. *)
Definition st_selectbox (options : list string) (live : option string) : option string :=
  match live with
  | Some s => Some s
  | None => head options
  end.

Definition st_text_area (value : PyVal) (live : option string) : PyVal :=
  match live with
  | Some s => VStr s
  | None => value
  end.

Definition st_slider (value : PyVal) (live : option PyVal) : PyVal :=
  match live with
  | Some v => v
  | None => value
  end.

(** [config["models"][name]] *)
Definition models_item (models : Models) (name : option string) : Res ModelConfig :=
  match name with
  | None => Raise (KeyError "None")
  | Some n =>
      match assoc n models with
      | Some mc => Ok mc
      | None => Raise (KeyError n)
      end
  end.

(** ** Attachments *)

(** An [UploadedFile] of the upload widget: its stable identifier, the media
    type the browser reported for it, and its bytes. *)
Record UploadedFile : Type := mkUploaded {
  file_id : string;
  file_type : string;
  file_bytes : list Byte.byte
}.

(** A decoded [PIL.Image]: the container format it was read from and its
    pixel data. *)
Record Image : Type := mkImage {
  img_format : string;
  img_width : Z;
  img_height : Z;
  img_pixels : list Byte.byte
}.

(** *** [base64.b64encode(...).decode("utf8")] *)

Definition b64_alphabet : string :=
  "ABCDEFGHIJKLMNOPQRSTUVWXYZabcdefghijklmnopqrstuvwxyz0123456789+/".

Definition b64_char (n : N) : string :=
  match String.get (N.to_nat (n mod 64)%N) b64_alphabet with
  | Some c => String c EmptyString
  | None => EmptyString
  end.

Fixpoint b64encode (bs : list Byte.byte) : string :=
  match bs with
  | [] => ""
  | [a] =>
      let n := (Byte.to_N a * 65536)%N in
      b64_char (n / 262144) +:+ b64_char (n / 4096) +:+ "=="
  | [a; b] =>
      let n := (Byte.to_N a * 65536 + Byte.to_N b * 256)%N in
      b64_char (n / 262144) +:+ b64_char (n / 4096) +:+ b64_char (n / 64) +:+ "="
  | a :: b :: c :: rest =>
      let n := (Byte.to_N a * 65536 + Byte.to_N b * 256 + Byte.to_N c)%N in
      b64_char (n / 262144) +:+ b64_char (n / 4096) +:+ b64_char (n / 64)
        +:+ b64_char n +:+ b64encode rest
  end.

(** ** The streaming callback *)

(** [StreamHandler]: the text shown so far in its container. *)
Record StreamHandler : Type := mkStreamHandler {
  sh_text : string
}.

(** [StreamHandler(st.empty())] *)
Definition StreamHandler_init : StreamHandler := {| sh_text := "" |}.

(** [on_llm_new_token]: [self.text += token], then the container is redrawn
    with the whole text. *)
Definition on_llm_new_token (h : StreamHandler) (token : string) : M StreamHandler :=
  let h' := {| sh_text := sh_text h +:+ token |} in
  emit (UiStream (sh_text h'));;
  mret h'.

(** The callback applied to the tokens of one run, in arrival order. *)
Fixpoint stream_tokens (h : StreamHandler) (tokens : list string) : M StreamHandler :=
  match tokens with
  | [] => mret h
  | t :: ts => h' ← on_llm_new_token h t; stream_tokens h' ts
  end.

(** What one call of the backend does: the tokens it streams, then the text
    it returns or the exception it raises. *)
Record LlmRun : Type := mkLlmRun {
  run_tokens : list string;
  run_result : Res string
}.

(** ** LangChain messages *)

(** [AIMessage(content)] and [HumanMessage(content)]: the constructors
    accept a string or a list of strings and dicts, and reject other
    payloads. *)
Definition is_block (v : PyVal) : bool :=
  match v with
  | VStr _ | VDict _ => true
  | _ => false
  end.

Definition new_message (type : string) (content : PyVal) : Res LcMessage :=
  match content with
  | VStr _ => Ok {| lc_type := type; lc_content := content |}
  | VList l =>
      if forallb is_block l
      then Ok {| lc_type := type; lc_content := content |}
      else Raise ValidationError
  | _ => Raise ValidationError
  end.

Definition AIMessage : PyVal → Res LcMessage := new_message "ai".
Definition HumanMessage : PyVal → Res LcMessage := new_message "human".

(** A message object stored inside a Python value. *)
Definition msg_val (m : LcMessage) : PyVal := VMsg (lc_type m) (lc_content m).

(** The body of the loop of [langchain_messages_format]: the value left in
    [messages[i]], or the exception raised while computing it. *)
Definition format_message (message : LcMessage) : Res LcMessage :=
  match lc_content message with
  | VList _ =>
      res_bind (py_first (lc_content message)) (fun first =>
      res_bind (py_contains "role" first) (fun tagged =>
      if tagged : bool then
        res_bind
          (if String.eqb (lc_type message) "ai"
           then res_bind (py_item "content" first) AIMessage
           else Ok message) (fun message1 =>
        res_bind
          (if String.eqb (lc_type message1) "human"
           then res_bind (py_first (lc_content message1)) (fun first1 =>
                res_bind (py_item "content" first1) HumanMessage)
           else Ok message1) (fun message2 =>
        Ok message2))
      else Ok message))
  | _ => Ok message
  end.

(** [langchain_messages_format]: the list is rewritten in place, entry by
    entry; an exception leaves the entries already rewritten in the list.
    The result is the list as the function leaves it and the exception that
    ended the loop, if any. *)
Fixpoint langchain_messages_format (messages : list LcMessage)
  : list LcMessage * option Exn :=
  match messages with
  | [] => ([], None)
  | message :: rest =>
      match format_message message with
      | Raise e => (message :: rest, Some e)
      | Ok message' =>
          let (rest', err) := langchain_messages_format rest in
          (message' :: rest', err)
      end
  end.

(** ** Session lifecycle *)

(** [random.randint(lo, hi)] may return [r]. *)
Definition randint (lo hi r : Z) : Prop := (lo ≤ r ≤ hi)%Z.

(** [new_chat], the callback of the "New Chat" button.  [r] is the value
    that [random.randint(1, 100)] returns on this call. *)
Definition new_chat (r : Z) : M unit :=
  modify_session (set_messages (Some [INIT_MESSAGE]));;
  modify_session (set_langchain_messages (Some []));;
  modify_session (set_file_uploader_key (Some r)).

(** The [ConversationChain] built by [init_conversationchain]: the model it
    calls and the window size [k] of its memory.  Its chat memory is the
    [langchain_messages] entry of the session
    ([StreamlitChatMessageHistory()]), and its prompt is [CLAUDE_PROMPT]:
    the history followed by the input. *)
Record ConversationChain : Type := mkChain {
  chain_llm : ChatModel;
  chain_k : Z
}.

Definition init_conversationchain (chat_model : ChatModel) (memory_window : PyVal)
  : M ConversationChain :=
  (* StreamlitChatMessageHistory() creates its session entry when absent *)
  s ← get_session;
  (if langchain_messages s is None
   then modify_session (set_langchain_messages (Some []))
   else mret tt);;
  (* ConversationBufferWindowMemory(k=...) wants an integer *)
  k ← lift (match memory_window with
            | VInt k => Ok k
            | _ => Raise ValidationError
            end);
  s ← get_session;
  (if messages s is None
   then modify_session (set_messages (Some [INIT_MESSAGE]))
   else mret tt);;
  mret {| chain_llm := chat_model; chain_k := k |}.

(** ** The script *)

(** What the user did before this run of the script. *)
Record Inputs : Type := mkInputs {
  in_random : Z;                      (* what [random.randint(1, 1000000)] returns *)
  in_widgets : Widgets;               (* the sidebar controls *)
  in_uploaded : list UploadedFile;    (* the files held by the upload widget *)
  in_prompt : option string           (* [st.chat_input()]: [None] when nothing
                                         was submitted *)
}.

(** [if prompt:] *)
Definition submitted (prompt : option string) : option string :=
  match prompt with
  | Some p => if String.eqb p "" then None else Some p
  | None => None
  end.

(** [l[-n:]] for [n > 0] *)
Definition last_n {A} (n : nat) (l : list A) : list A :=
  drop (length l - n)%nat l.

(** The inline block built for one attachment. *)
Definition image_block (data : string) : PyVal :=
  VDict [("type", VStr "image");
         ("source", VDict [("type", VStr "base64");
                           ("media_type", VStr "image/jpeg");
                           ("data", VStr data)])].

(** The message list that a prompt placeholder makes of the dicts given as
    input: one message per dict, of the type its ["role"] names. *)
Definition placeholder_message (v : PyVal) : Res LcMessage :=
  res_bind (py_item "role" v) (fun r =>
  res_bind (py_item "content" v) (fun c =>
  match r with
  | VStr "user" | VStr "human" => HumanMessage c
  | VStr "assistant" | VStr "ai" => AIMessage c
  | _ => Raise ValidationError
  end)).

Fixpoint placeholder_messages (vs : list PyVal) : Res (list LcMessage) :=
  match vs with
  | [] => Ok []
  | v :: vs' =>
      res_bind (placeholder_message v) (fun m =>
      res_bind (placeholder_messages vs') (fun ms => Ok (m :: ms)))
  end.

(** [CLAUDE_PROMPT]: the messages of the ["history"] placeholder followed by
    those of the ["input"] placeholder. *)
Definition CLAUDE_PROMPT (history input : list LcMessage) : list LcMessage :=
  history ++ input.

Section Script.

(** [config["models"]] of [config.py]. *)
Variable models : Models.

(** [ChatModel.format_prompt] of [models.py]. *)
Variable format_prompt : ChatModel → string → PyVal.

(** The backend behind [chat_model.llm]. *)
Variable llm : ChatModel → list LcMessage → LlmRun.

(** [Image.open], [None] when the bytes are not an image, and
    [img.save(buffer, format=img.format)], the bytes written, [None] when
    the image cannot be written (its data is truncated). *)
Variable Image_open : UploadedFile → option Image.
Variable Image_save : Image → option (list Byte.byte).

(** Every sidebar widget is keyed by [f"{st.session_state['widget_key']}_..."]:
    the entry is read before the first widget is made, and the read raises
    while the entry is absent.  The key names the widget; the value the
    widget returns is its live value. *)
Definition render_sidebar (w : Widgets) : M (gmap string PyVal * PyVal) :=
  _ ← read_widget_key;
  let model_name_select := st_selectbox (models.*1) (w_model w) in
  modify_session (set_model_name model_name_select);;
  model_config ← lift (models_item models model_name_select);
  let system_prompt_disabled :=
    config_get model_config "system_prompt_disabled" (VBool false) in
  let system_prompt :=
    st_text_area (config_get model_config "default_system_prompt" (VStr ""))
      (w_system_prompt w) in
  let temperature :=
    st_slider (config_get model_config "temperature" (VFloat 1%float))
      (w_temperature w) in
  let top_p :=
    st_slider (config_get model_config "top_p" (VFloat 1%float)) (w_top_p w) in
  let top_k :=
    st_slider (config_get model_config "top_k" (VInt 500)) (w_top_k w) in
  let max_tokens :=
    st_slider (config_get model_config "max_tokens" (VInt 4096))
      (w_max_tokens w) in
  let memory_window :=
    st_slider (config_get model_config "memory_window" (VInt 10))
      (w_memory_window w) in
  let model_kwargs : gmap string PyVal :=
    <["max_tokens" := max_tokens]>
      (<["top_k" := top_k]>
        (<["top_p" := top_p]>
          (<["temperature" := temperature]> ∅))) in
  let model_kwargs :=
    if negb (truthy (config_get model_config "system_prompt_disabled" (VBool false)))
    then <["system" := system_prompt]> model_kwargs
    else model_kwargs in
  mret (model_kwargs, memory_window).

(** [ConversationChain.invoke({"input": input}, {"callbacks": [handler]})]:
    the memory contributes the last [k] exchanges of the session's memory
    log ([messages[-k * 2:] if k > 0 else []]), the prompt is that history
    followed by the input, the model streams into the handler, and on
    return the exchange is saved to the memory log. *)
Definition ConversationChain_invoke (conversation : ConversationChain)
    (input : PyVal) (handler : StreamHandler) : M PyVal :=
  memory ← read_langchain_messages;
  let history :=
    if (0 <? chain_k conversation)%Z
    then last_n (Z.to_nat (chain_k conversation * 2)) memory
    else [] in
  turn ← lift (match input with
               | VList vs => placeholder_messages vs
               | _ => Raise ValidationError
               end);
  let context := CLAUDE_PROMPT history turn in
  log_call {| call_model := chain_llm conversation; call_context := context |};;
  let run := llm (chain_llm conversation) context in
  stream_tokens handler (run_tokens run);;
  text ← lift (run_result run);
  human ← lift (HumanMessage input);
  ai ← lift (AIMessage (VStr text));
  memory ← read_langchain_messages;
  modify_session (set_langchain_messages (Some (memory ++ [human; ai])));;
  mret (VDict [("input", input);
               ("history", VList (msg_val <$> history));
               ("response", VStr text)]).

Definition generate_response (conversation : ConversationChain) (input : PyVal)
  : M PyVal :=
  ConversationChain_invoke conversation input StreamHandler_init.

(** [Image.open(uploaded_file)] *)
Definition open_image (f : UploadedFile) : M Image :=
  match Image_open f with
  | Some img => mret img
  | None => raise (UnidentifiedImageError (file_id f))
  end.

(** The thumbnail grid: the column after [i], wrapping after [num_cols = 10]
    columns. *)
Definition next_col (i : nat) : nat :=
  if (10 <=? S i)%nat then 0%nat else S i.

(** The inner loop of [display_images]; the result is the column counter. *)
Fixpoint display_image (image_id : string) (uploaded_files : list UploadedFile)
    (i : nat) : M nat :=
  match uploaded_files with
  | [] => mret i
  | uploaded_file :: rest =>
      if String.eqb image_id (file_id uploaded_file) then
        _ ← open_image uploaded_file;
        emit (UiImage (file_id uploaded_file) i);;
        display_image image_id rest (next_col i)
      else display_image image_id rest i
  end.

Fixpoint display_images_from (image_ids : list string)
    (uploaded_files : list UploadedFile) (i : nat) : M unit :=
  match image_ids with
  | [] => mret tt
  | image_id :: rest =>
      i' ← display_image image_id uploaded_files i;
      display_images_from rest uploaded_files i'
  end.

Definition display_images (image_ids : list string)
    (uploaded_files : list UploadedFile) : M unit :=
  display_images_from image_ids uploaded_files 0.

Definition display_user_message (message_content : PyVal) : M unit :=
  match message_content with
  | VStr _ => emit (UiMarkdown message_content)
  | VDict _ =>
      text ← lift (res_bind (py_item "input" message_content) (fun a =>
                   res_bind (py_first a) (fun b =>
                   res_bind (py_item "content" b) (fun c =>
                   res_bind (py_first c) (fun d =>
                   py_item "text" d)))));
      emit (UiMarkdown text)
  | _ =>
      text ← lift (res_bind (py_first message_content) (py_item "text"));
      emit (UiMarkdown text)
  end.

Definition display_assistant_message (message_content : PyVal) : M unit :=
  match message_content with
  | VStr _ => emit (UiMarkdown message_content)
  | _ =>
      has ← lift (py_contains "response" message_content);
      if has : bool then
        text ← lift (py_item "response" message_content);
        emit (UiMarkdown text)
      else mret tt
  end.

(** [uploaded_files and "images" in message and message["images"]] *)
Definition shown_images (uploaded_files : list UploadedFile) (message : Message)
  : option (list string) :=
  match uploaded_files, images message with
  | _ :: _, Some (id :: ids) => Some (id :: ids)
  | _, _ => None
  end.

Definition display_chat_message (uploaded_files : list UploadedFile)
    (message : Message) : M unit :=
  emit (UiChatMessage (role message));;
  (match shown_images uploaded_files message with
   | Some ids => display_images ids uploaded_files
   | None => mret tt
   end);;
  (if String.eqb (role message) "user"
   then display_user_message (content message) else mret tt);;
  (if String.eqb (role message) "assistant"
   then display_assistant_message (content message) else mret tt).

Definition display_chat_messages (uploaded_files : list UploadedFile) : M unit :=
  ms ← read_messages;
  for_each ms (display_chat_message uploaded_files).

(** [img.save(output_buffer, format=img.format)] followed by
    [output_buffer.getvalue()] *)
Definition save_image (f : UploadedFile) (img : Image) : M (list Byte.byte) :=
  match Image_save img with
  | Some data => mret data
  | None => raise (OSError (file_id f))
  end.

(** The loop of [display_uploaded_images], with its three variables: the
    column counter [i], [content_images], and the caller's list
    [uploaded_file_ids], which the function extends in place. *)
Fixpoint display_uploaded_images_loop (uploaded_files : list UploadedFile)
    (message_images_list : list string) (i : nat)
    (content_images : list PyVal) (uploaded_file_ids : list string)
  : M (list PyVal * list string) :=
  match uploaded_files with
  | [] => mret (content_images, uploaded_file_ids)
  | uploaded_file :: rest =>
      if bool_decide (file_id uploaded_file ∈ message_images_list) then
        display_uploaded_images_loop rest message_images_list i
          content_images uploaded_file_ids
      else
        let uploaded_file_ids := uploaded_file_ids ++ [file_id uploaded_file] in
        img ← open_image uploaded_file;
        data ← save_image uploaded_file img;
        let content_image := b64encode data in
        let content_images := content_images ++ [image_block content_image] in
        emit (UiImage (file_id uploaded_file) i);;
        display_uploaded_images_loop rest message_images_list (next_col i)
          content_images uploaded_file_ids
  end.

(** [display_uploaded_images]: the blocks it returns, and the caller's
    [uploaded_file_ids] as the call leaves it. *)
Definition display_uploaded_images (uploaded_files : list UploadedFile)
    (message_images_list : list string) (uploaded_file_ids : list string)
  : M (list PyVal * list string) :=
  display_uploaded_images_loop uploaded_files message_images_list 0 []
    uploaded_file_ids.

(** The comprehension that collects the identifiers already attached to a
    user message. *)
Definition consumed_ids (ms : list Message) : list string :=
  m ← ms;
  if String.eqb (role m) "user"
  then match images m with
       | Some (id :: ids) => id :: ids
       | _ => []
       end
  else [].

(** [for content_image in content_images: formatted_prompt.append(...)] *)
Definition append_blocks (formatted_prompt : PyVal) (content_images : list PyVal)
  : Res PyVal :=
  match content_images with
  | [] => Ok formatted_prompt
  | _ :: _ =>
      match formatted_prompt with
      | VList l => Ok (VList (l ++ content_images))
      | _ => Raise (AttributeError "append")
      end
  end.

(** The part of [main] that turns this run's prompt and uploads into a
    user message.  The result is the local variable [formatted_prompt]:
    [None] while no assignment to it has run. *)
Definition stage_prompt (chat_model : ChatModel)
    (uploaded_files : list UploadedFile) (prompt : option string)
  : M (option PyVal) :=
  ms ← read_messages;
  let message_images_list := consumed_ids ms in
  let uploaded_file_ids : list string := [] in
  if bool_decide (uploaded_files ≠ [])
     && (length message_images_list <? length uploaded_files)%nat
  then
    emit (UiChatMessage "user");;
    '(content_images, uploaded_file_ids) ←
      display_uploaded_images uploaded_files message_images_list uploaded_file_ids;
    match submitted prompt with
    | Some p =>
        formatted_prompt ← lift (append_blocks (format_prompt chat_model p)
                                   content_images);
        append_message {| role := "user"; content := formatted_prompt;
                          images := Some uploaded_file_ids |};;
        emit (UiMarkdown (VStr p));;
        mret (Some formatted_prompt)
    | None => mret None
    end
  else
    match submitted prompt with
    | Some p =>
        let formatted_prompt := format_prompt chat_model p in
        append_message {| role := "user"; content := formatted_prompt;
                          images := None |};;
        emit (UiChatMessage "user");;
        emit (UiMarkdown (VStr p));;
        mret (Some formatted_prompt)
    | None => mret None
    end.

(** [st.session_state["langchain_messages"] = langchain_messages_format(...)]:
    the function works on the session's own list, so what it rewrote
    before an exception stays in the session. *)
Definition normalize_memory : M unit :=
  memory ← read_langchain_messages;
  let (memory', err) := langchain_messages_format memory in
  modify_session (set_langchain_messages (Some memory'));;
  match err with
  | Some e => raise e
  | None => mret tt
  end.

(** The last statement of [main]: answer when the last message is not the
    assistant's. *)
Definition respond (conv_chain : ConversationChain) (formatted_prompt : option PyVal)
  : M unit :=
  ms ← read_messages;
  final ← lift (match last ms with
                | Some m => Ok m
                | None => Raise IndexError
                end);
  if negb (String.eqb (role final) "assistant") then
    emit (UiChatMessage "assistant");;
    fp ← lift (match formatted_prompt with
               | Some v => Ok v
               | None => Raise (UnboundLocalError "formatted_prompt")
               end);
    response ← generate_response conv_chain
                 (VList [VDict [("role", VStr "user"); ("content", fp)]]);
    append_message {| role := "assistant"; content := response; images := None |}
  else mret tt.

(** [main] up to and including the redraw of the message log: the session
    entries are created, the sidebar is read, the chat model and the
    conversation chain are built. *)
Definition main_setup (inp : Inputs) : M (ChatModel * ConversationChain) :=
  s ← get_session;
  (if widget_key s is None
   then modify_session (set_widget_key (Some (pretty (in_random inp))))
   else mret tt);;
  '(model_kwargs, memory_window) ← render_sidebar (in_widgets inp);
  s ← get_session;
  let chat_model :=
    {| cm_model_name := model_name s; cm_model_kwargs := model_kwargs |} in
  conv_chain ← init_conversationchain chat_model memory_window;
  s ← get_session;
  (if file_uploader_key s is None
   then modify_session (set_file_uploader_key (Some 0%Z))
   else mret tt);;
  s ← get_session;
  _ ← lift (models_item models (model_name s));
  display_chat_messages (in_uploaded inp);;
  mret (chat_model, conv_chain).

(** [main]: one run of the script. *)
Definition main (inp : Inputs) : M unit :=
  '(chat_model, conv_chain) ← main_setup inp;
  formatted_prompt ← stage_prompt chat_model (in_uploaded inp) (in_prompt inp);
  normalize_memory;;
  respond conv_chain formatted_prompt.

(** A click on "New Chat": the callback runs, then the script. *)
Definition click_new_chat (r : Z) (inp : Inputs) : M unit :=
  new_chat r;;
  main inp.

End Script.

(** The world before the first run of a session. *)
Definition initial_world : World :=
  {| session := empty_session; ui := []; llm_calls := [] |}.

(** ** Vocabulary of the statements *)

(** The configuration record of the model selected in the sidebar. *)
Definition selected_config (models : Models) (w : Widgets) : Res ModelConfig :=
  models_item models (st_selectbox (models.*1) (w_model w)).

(** The flag [system_prompt_disabled] of a record, read as the script reads
    it. *)
Definition system_prompt_disabled (mc : ModelConfig) : bool :=
  truthy (config_get mc "system_prompt_disabled" (VBool false)).

(** The live value of the system prompt box. *)
Definition live_system_prompt (mc : ModelConfig) (w : Widgets) : PyVal :=
  st_text_area (config_get mc "default_system_prompt" (VStr "")) (w_system_prompt w).

(** What [render_sidebar] returns in a session that has its widget key; it
    does not depend on the world otherwise. *)
Definition inference_parameters (models : Models) (w : Widgets)
  : Res (gmap string PyVal * PyVal) :=
  fst (render_sidebar models w
         {| session := set_widget_key (Some "") empty_session;
            ui := []; llm_calls := [] |}).

(** A world with the session changed by [f]. *)
Definition with_session (f : SessionState → SessionState) (w : World) : World :=
  {| session := f (session w); ui := ui w; llm_calls := llm_calls w |}.

(** A world with more output. *)
Definition with_ui (es : list UiEvent) (w : World) : World :=
  {| session := session w; ui := ui w ++ es; llm_calls := llm_calls w |}.

(** The content wrapped by a role-tagged entry of the memory log: the
    ["content"] of its first block, when that block is a dict with a
    ["role"] key. *)
Definition wrapped_content (m : LcMessage) : option PyVal :=
  match lc_content m with
  | VList (VDict d :: _) =>
      if bool_decide (is_Some (assoc "role" d)) then assoc "content" d else None
  | _ => None
  end.

(** A content in plain form: a string, or a block sequence whose first block
    carries no role marker. *)
Definition plain (c : PyVal) : bool :=
  match c with
  | VList [] => false
  | VList (first :: _) =>
      match py_contains "role" first with
      | Ok false => true
      | _ => false
      end
  | _ => true
  end.

(** Every role-tagged entry wraps a content in plain form. *)
Definition wraps_plain (m : LcMessage) : Prop :=
  ∀ c, wrapped_content m = Some c → plain c = true.

(** The display buffer after each token of a stream, starting from [acc]. *)
Fixpoint buffers (acc : string) (tokens : list string) : list string :=
  match tokens with
  | [] => []
  | t :: ts => (acc +:+ t) :: buffers (acc +:+ t) ts
  end.

(** [preserves R m]: every run of [m], whether it returns or raises, takes a
    world to an [R]-related one. *)
Definition preserves {A} (R : relation World) (m : M A) : Prop :=
  ∀ w, R w (m w).2.

(** Only the page changed. *)
Definition only_ui : relation World :=
  fun w w' => session w' = session w ∧ llm_calls w' = llm_calls w.

(** The message log and the record of model calls are as they were. *)
Definition same_log : relation World :=
  fun w w' =>
    messages (session w') = messages (session w) ∧ llm_calls w' = llm_calls w.

(** As [same_log], except that an absent message log may have been created
    with the greeting in it. *)
Definition log_kept : relation World :=
  fun w w' =>
    (messages (session w') = messages (session w)
     ∨ (messages (session w) = None ∧ messages (session w') = Some [INIT_MESSAGE]))
    ∧ llm_calls w' = llm_calls w.

(** The input handed to the conversation chain for a formatted prompt. *)
Definition turn_input (formatted_prompt : PyVal) : PyVal :=
  VList [VDict [("role", VStr "user"); ("content", formatted_prompt)]].

(** The prior turns that a memory of window [k] contributes: the last [k]
    exchanges of the log. *)
Definition window (k : Z) (memory : list LcMessage) : list LcMessage :=
  if (0 <? k)%Z then last_n (Z.to_nat (k * 2)) memory else [].

(** The assistant message that wraps the chain's response. *)
Definition answer (formatted_prompt : PyVal) (history : list LcMessage) (text : string)
  : Message :=
  {| role := "assistant";
     content := VDict [("input", turn_input formatted_prompt);
                       ("history", VList (msg_val <$> history));
                       ("response", VStr text)];
     images := None |}.

(** The two entries that a completed exchange adds to the memory log. *)
Definition exchange (formatted_prompt : PyVal) (text : string) : list LcMessage :=
  [ {| lc_type := "human"; lc_content := turn_input formatted_prompt |};
    {| lc_type := "ai"; lc_content := VStr text |} ].

(** What the assistant's turn writes to the page: the chat bubble, then the
    buffer after each token. *)
Definition streamed (tokens : list string) : list UiEvent :=
  UiChatMessage "assistant" :: (UiStream <$> buffers "" tokens).

(** The files of the upload widget that no user message carries yet. *)
Definition unconsumed (consumed : list string) (files : list UploadedFile)
  : list UploadedFile :=
  filter (fun f => file_id f ∉ consumed) files.

(** The bytes an upload is re-encoded to: it is opened, then saved. *)
Definition reencoded (open : UploadedFile → option Image)
    (save : Image → option (list Byte.byte)) (f : UploadedFile)
  : option (list Byte.byte) :=
  open f ≫= save.

(** The block made of re-encoded bytes: their base64 text. *)
Definition encoded_block (data : list Byte.byte) : PyVal :=
  image_block (b64encode data).

(** The thumbnails of a run of files, the first in column [i]. *)
Fixpoint thumbnails (i : nat) (files : list UploadedFile) : list UiEvent :=
  match files with
  | [] => []
  | f :: files' => UiImage (file_id f) i :: thumbnails (next_col i) files'
  end.

(** [block["source"]["media_type"]] *)
Definition block_media_type (block : PyVal) : Res PyVal :=
  res_bind (py_item "source" block) (py_item "media_type").

(** ** A sample deployment

    A concrete configuration, chat model and backend, on which the
    statements below are run. *)

Definition sample_models : Models :=
  [("claude-3",
    <["temperature" := VFloat 0.5%float]>
      (<["memory_window" := VInt 10]>
        ({[ "default_system_prompt" := VStr "You are a helpful assistant." ]}
         : gmap string PyVal)));
   ("titan-text",
    <["system_prompt_disabled" := VBool true]>
      ({[ "image_upload_disabled" := VBool true ]} : gmap string PyVal))].

(** A chat model that formats a prompt as one text block. *)
Definition sample_format_prompt (_ : ChatModel) (prompt : string) : PyVal :=
  VList [VDict [("type", VStr "text"); ("text", VStr prompt)]].

(** A backend that streams two tokens and returns their concatenation. *)
Definition sample_llm (_ : ChatModel) (_ : list LcMessage) : LlmRun :=
  {| run_tokens := ["Hi"; " there"]; run_result := Ok "Hi there" |}.

(** A backend that streams one token and then fails. *)
Definition failing_llm (_ : ChatModel) (_ : list LcMessage) : LlmRun :=
  {| run_tokens := ["Hi"]; run_result := Raise (BackendError "throttled") |}.

(** A decoder that tells PNG from JPEG by the reported type, and an encoder
    that writes the pixels back. *)
Definition sample_open (f : UploadedFile) : option Image :=
  Some {| img_format := if String.eqb (file_type f) "image/png" then "PNG" else "JPEG";
          img_width := 1; img_height := 1; img_pixels := file_bytes f |}.

Definition sample_save (img : Image) : option (list Byte.byte) :=
  Some (img_pixels img).

Definition png_upload : UploadedFile :=
  {| file_id := "f1"; file_type := "image/png";
     file_bytes := [Byte.x89; Byte.x50; Byte.x4e; Byte.x47] |}.

(** A session right after its first load. *)
Definition fresh_world : World :=
  {| session := {| widget_key := Some "424242"; model_name := Some "claude-3";
                   messages := Some [INIT_MESSAGE]; langchain_messages := Some [];
                   file_uploader_key := Some 0%Z |};
     ui := []; llm_calls := [] |}.

(** The user submits "Hello"; the user submits nothing while an image sits
    in the upload widget. *)
Definition hello_inputs : Inputs :=
  {| in_random := 424242; in_widgets := untouched; in_uploaded := [];
     in_prompt := Some "Hello" |}.

Definition upload_only_inputs : Inputs :=
  {| in_random := 424242; in_widgets := untouched; in_uploaded := [png_upload];
     in_prompt := None |}.

(** The parameters, chat model and chain of the sample deployment with the
    sidebar untouched. *)
Definition sample_kwargs : gmap string PyVal :=
  match inference_parameters sample_models untouched with
  | Ok (kwargs, _) => kwargs
  | Raise _ => ∅
  end.

Definition sample_chat_model : ChatModel :=
  {| cm_model_name := Some "claude-3"; cm_model_kwargs := sample_kwargs |}.

Definition sample_chain : ConversationChain :=
  {| chain_llm := sample_chat_model; chain_k := 10 |}.

(** The turn made of "Hello" by the sample chat model. *)
Definition hello_prompt : PyVal :=
  VList [VDict [("type", VStr "text"); ("text", VStr "Hello")]].

Definition hello_turn_message : LcMessage :=
  {| lc_type := "human"; lc_content := hello_prompt |}.

(** The world in which a turn was lost: the backend failed on "Hello". *)
Definition stalled_world : World :=
  (main sample_models sample_format_prompt failing_llm sample_open sample_save
     hello_inputs fresh_world).2.

(** The column reached from column [i] after [n] more thumbnails. *)
Definition col_after (i n : nat) : nat := Nat.iter n next_col i.


(** The tokens of a stream, joined. *)
Definition joined (tokens : list string) : string :=
  foldr String.append "" tokens.

(** The widget key and the upload epoch, once set, are as they were. *)
Definition keys_kept : relation World :=
  fun w w' =>
    (∀ k, widget_key (session w) = Some k → widget_key (session w') = Some k)
    ∧ (∀ k, file_uploader_key (session w) = Some k →
            file_uploader_key (session w') = Some k).

(** More of the sample deployment: a JPEG upload, a file that is not an
    image, a decoder that rejects empty files, and a chat model that formats
    a prompt as plain text. *)
Definition jpeg_upload : UploadedFile :=
  {| file_id := "f2"; file_type := "image/jpeg";
     file_bytes := [Byte.xff; Byte.xd8; Byte.xff] |}.

Definition broken_upload : UploadedFile :=
  {| file_id := "f3"; file_type := "image/png"; file_bytes := [] |}.

Definition strict_open (f : UploadedFile) : option Image :=
  match file_bytes f with
  | [] => None
  | _ :: _ => sample_open f
  end.

(** An upload cut short in transit: the decoder reads its header, the
    encoder fails when it loads the pixels. *)
Definition truncated_upload : UploadedFile :=
  {| file_id := "f4"; file_type := "image/png"; file_bytes := [Byte.x89] |}.

Definition strict_save (img : Image) : option (list Byte.byte) :=
  match img_pixels img with
  | _ :: _ :: _ => sample_save img
  | _ => None
  end.

Definition text_format_prompt (_ : ChatModel) (prompt : string) : PyVal :=
  VStr prompt.

(** Twelve uploads, named "0" to "11". *)
Definition twelve_uploads : list UploadedFile :=
  (fun n => {| file_id := pretty n; file_type := "image/jpeg";
               file_bytes := [Byte.xff; Byte.xd8] |}) <$> seq 0 12.

(** The user submits a question about the PNG held by the upload widget; the
    user submits nothing and uploads nothing. *)
Definition question_inputs : Inputs :=
  {| in_random := 424242; in_widgets := untouched; in_uploaded := [png_upload];
     in_prompt := Some "What is this?" |}.

Definition idle_inputs : Inputs :=
  {| in_random := 424242; in_widgets := untouched; in_uploaded := [];
     in_prompt := None |}.

(** A session in which the PNG has been attached to a user message. *)
Definition attached_world : World :=
  {| session :=
       {| widget_key := Some "424242"; model_name := Some "claude-3";
          messages :=
            Some [INIT_MESSAGE;
                  {| role := "user";
                     content := VList [VDict [("type", VStr "text");
                                              ("text", VStr "What is this?")];
                                       image_block "iVBORw=="];
                     images := Some ["f1"] |};
                  answer hello_prompt [] "A picture."];
          langchain_messages := Some [];
          file_uploader_key := Some 0%Z |};
     ui := []; llm_calls := [] |}.

(** The records of the two sample models. *)
Definition claude_config : ModelConfig :=
  <["temperature" := VFloat 0.5%float]>
    (<["memory_window" := VInt 10]>
      ({[ "default_system_prompt" := VStr "You are a helpful assistant." ]}
       : gmap string PyVal)).

Definition titan_config : ModelConfig :=
  <["system_prompt_disabled" := VBool true]>
    ({[ "image_upload_disabled" := VBool true ]} : gmap string PyVal).

(** The sidebar after the user typed a system prompt, lowered the
    temperature and set the memory window to one exchange; the sidebar after
    the user selected the second model. *)
Definition typed_widgets : Widgets :=
  {| w_model := None; w_system_prompt := Some "Answer briefly.";
     w_temperature := Some (VFloat 0.25%float); w_top_p := None; w_top_k := None;
     w_max_tokens := None; w_memory_window := Some (VInt 1) |}.

Definition titan_widgets : Widgets :=
  {| w_model := Some "titan-text"; w_system_prompt := None; w_temperature := None;
     w_top_p := None; w_top_k := None; w_max_tokens := None;
     w_memory_window := None |}.

(** A session with two completed turns, "Hello" and "And then?"; the third
    question, asked after the sidebar was changed as in [typed_widgets]; and
    the parameters and the chat model of that run. *)
Definition again_inputs : Inputs :=
  {| in_random := 424242; in_widgets := untouched; in_uploaded := [];
     in_prompt := Some "And then?" |}.

Definition two_turn_world : World :=
  (main sample_models sample_format_prompt sample_llm sample_open sample_save
     again_inputs
     (main sample_models sample_format_prompt sample_llm sample_open sample_save
        hello_inputs fresh_world).2).2.

Definition why_inputs : Inputs :=
  {| in_random := 424242; in_widgets := typed_widgets; in_uploaded := [];
     in_prompt := Some "Why?" |}.

Definition typed_kwargs : gmap string PyVal :=
  match inference_parameters sample_models typed_widgets with
  | Ok (kwargs, _) => kwargs
  | Raise _ => ∅
  end.

Definition typed_chat_model : ChatModel :=
  {| cm_model_name := Some "claude-3"; cm_model_kwargs := typed_kwargs |}.

Definition typed_chain : ConversationChain :=
  {| chain_llm := typed_chat_model; chain_k := 1 |}.

Definition human_text (text : string) : LcMessage :=
  {| lc_type := "human";
     lc_content := VList [VDict [("type", VStr "text"); ("text", VStr text)]] |}.

Definition ai_text (text : string) : LcMessage :=
  {| lc_type := "ai"; lc_content := VStr text |}.

(** * Properties *)

(** ** Running the monad *)

Lemma bind_run {A B} (m : M A) (k : A → M B) (w : World) :
  (m ≫= k) w =
  match m w with
  | (Ok a, w') => k a w'
  | (Raise e, w') => (Raise e, w')
  end.
Proof. reflexivity. Qed.

Lemma bind_ok {A B} (m : M A) (k : A → M B) (w w' : World) (a : A) :
  m w = (Ok a, w') → (m ≫= k) w = k a w'.
Proof. intros H. rewrite bind_run, H. reflexivity. Qed.

Lemma bind_raise {A B} (m : M A) (k : A → M B) (w w' : World) (e : Exn) :
  m w = (Raise e, w') → (m ≫= k) w = (Raise e, w').
Proof. intros H. rewrite bind_run, H. reflexivity. Qed.

(** ** Base64 test vectors (RFC 4648) *)

Example b64_foobar :
  b64encode [Byte.x66; Byte.x6f; Byte.x6f; Byte.x62; Byte.x61; Byte.x72] = "Zm9vYmFy"
  ∧ b64encode [Byte.x66; Byte.x6f; Byte.x6f; Byte.x62; Byte.x61] = "Zm9vYmE="
  ∧ b64encode [Byte.x66; Byte.x6f; Byte.x6f; Byte.x62] = "Zm9vYg==".
Proof. repeat split; vm_compute; reflexivity. Qed.

(** ** Session lifecycle *)

Lemma new_chat_run (r : Z) (w : World) :
  new_chat r w =
  (Ok tt,
   {| session := {| widget_key := widget_key (session w);
                    model_name := model_name (session w);
                    messages := Some [INIT_MESSAGE];
                    langchain_messages := Some [];
                    file_uploader_key := Some r |};
      ui := ui w; llm_calls := llm_calls w |}).
Proof. reflexivity. Qed.

(** C5 at a failing input: the session was reset once and the draw was 42;
    "New Chat" is clicked again and the draw from 1..100 is 42 again.  The
    reset restores the greeting and empties the memory log, but the upload
    epoch after the reset equals the epoch before it, so the upload widget
    keeps its key and is not replaced. *)
Theorem new_chat_repeated_draw :
  let w := (new_chat 42 fresh_world).2 in
  let r := new_chat 42 w in
  randint 1 100 42
  ∧ file_uploader_key (session fresh_world) = Some 0%Z
  ∧ file_uploader_key (session w) = Some 42%Z
  ∧ r.1 = Ok tt
  ∧ messages (session r.2) = Some [INIT_MESSAGE]
  ∧ langchain_messages (session r.2) = Some []
  ∧ file_uploader_key (session r.2) = file_uploader_key (session w).
Proof.
  intros w r. split; [unfold randint; lia |].
  subst r w. rewrite !new_chat_run. cbn. repeat split; reflexivity.
Qed.

Lemma init_conversationchain_run (cm : ChatModel) (k : Z) (w : World) :
  init_conversationchain cm (VInt k) w =
  (Ok {| chain_llm := cm; chain_k := k |},
   {| session := {| widget_key := widget_key (session w);
                    model_name := model_name (session w);
                    messages := Some (default [INIT_MESSAGE] (messages (session w)));
                    langchain_messages :=
                      Some (default [] (langchain_messages (session w)));
                    file_uploader_key := file_uploader_key (session w) |};
      ui := ui w; llm_calls := llm_calls w |}).
Proof.
  destruct w as [[wk mn ms lm fk] u c].
  destruct ms, lm; reflexivity.
Qed.

(** C6: immediately after the initialisation of a session that has no
    message log yet, and immediately after a reset of any session, the first
    element of [messages] is the fixed assistant greeting. *)
Theorem greeting_is_first (cm : ChatModel) (k : Z) (w : World) :
  messages (session w) = None →
  (∃ chain w', init_conversationchain cm (VInt k) w = (Ok chain, w')
     ∧ messages (session w') = Some [INIT_MESSAGE]
     ∧ (messages (session w') ≫= head) = Some INIT_MESSAGE)
  ∧ (∀ (r : Z) (v : World),
       (new_chat r v).1 = Ok tt
       ∧ (messages (session (new_chat r v).2) ≫= head) = Some INIT_MESSAGE)
  ∧ role INIT_MESSAGE = "assistant"
  ∧ content INIT_MESSAGE = VStr "Hi! I'm your AI Bot on Bedrock. How may I help you?".
Proof.
  intros Hnone. split; [| split; [| split; reflexivity]].
  - eexists _, _. split; [apply init_conversationchain_run |].
    cbn. rewrite Hnone. split; reflexivity.
  - intros r v. rewrite new_chat_run. split; reflexivity.
Qed.

Lemma greeting_is_first_witness :
  messages (session initial_world) = None
  ∧ ∃ chain w',
      init_conversationchain {| cm_model_name := Some "claude"; cm_model_kwargs := ∅ |}
        (VInt 10) initial_world = (Ok chain, w')
      ∧ messages (session w') = Some [INIT_MESSAGE]
      ∧ (messages (session w') ≫= head) = Some INIT_MESSAGE.
Proof.
  split; [reflexivity |].
  exact (proj1 (greeting_is_first
                  {| cm_model_name := Some "claude"; cm_model_kwargs := ∅ |}
                  10 initial_world eq_refl)).
Defined.

(** ** Parameter resolver *)

Lemma read_widget_key_run (world : World) (key : string) :
  widget_key (session world) = Some key →
  read_widget_key world = (Ok key, world).
Proof.
  intros Hkey. unfold read_widget_key. rewrite bind_run. cbn. rewrite Hkey.
  reflexivity.
Qed.

Lemma render_sidebar_world (models : Models) (w : Widgets) (world : World) :
  is_Some (widget_key (session world)) →
  render_sidebar models w world =
  (inference_parameters models w,
   with_session (set_model_name (st_selectbox (models.*1) (w_model w))) world).
Proof.
  intros [key Hkey]. unfold inference_parameters, render_sidebar.
  rewrite bind_run, (read_widget_key_run world key Hkey). cbv beta iota.
  rewrite !bind_run. cbn.
  destruct (models_item models (st_selectbox (models.*1) (w_model w)));
    reflexivity.
Qed.

(** Without its widget key the sidebar cannot be drawn. *)
Lemma render_sidebar_unkeyed (models : Models) (w : Widgets) (world : World) :
  widget_key (session world) = None →
  render_sidebar models w world = (Raise (KeyError "widget_key"), world).
Proof.
  intros Hkey. unfold render_sidebar, read_widget_key. rewrite !bind_run. cbn.
  rewrite Hkey. reflexivity.
Qed.

Lemma render_sidebar_ok_inv (models : Models) (w : Widgets) (world world' : World)
    (x : gmap string PyVal * PyVal) :
  render_sidebar models w world = (Ok x, world') →
  inference_parameters models w = Ok x
  ∧ world' = with_session (set_model_name (st_selectbox (models.*1) (w_model w)))
               world.
Proof.
  destruct (widget_key (session world)) as [key|] eqn:Hkey.
  - rewrite render_sidebar_world by eauto. intros H. injection H as H1 H2. done.
  - rewrite render_sidebar_unkeyed by exact Hkey. discriminate.
Qed.

(** C3: in a session that has its widget key, when the selected model's
    record marks the system prompt as disabled, the parameters produced by
    the sidebar have no ["system"] field at all; when it does not, the field
    is present and holds the live value of the system prompt box. *)
Theorem system_prompt_field (models : Models) (w : Widgets) (world : World)
    (mc : ModelConfig) :
  is_Some (widget_key (session world)) →
  selected_config models w = Ok mc →
  ∃ (model_kwargs : gmap string PyVal) (memory_window : PyVal) (world' : World),
    render_sidebar models w world = (Ok (model_kwargs, memory_window), world')
    ∧ model_kwargs !! "system" =
        (if system_prompt_disabled mc then None else Some (live_system_prompt mc w))
    ∧ (mc !! "system_prompt_disabled" = Some (VBool true) →
       "system" ∉ dom model_kwargs)
    ∧ (mc !! "system_prompt_disabled" = Some (VBool false)
       ∨ mc !! "system_prompt_disabled" = None →
       model_kwargs !! "system" = Some (live_system_prompt mc w)).
Proof.
  unfold selected_config. intros [key Hkey] Hsel.
  unfold render_sidebar. rewrite bind_run, (read_widget_key_run world key Hkey).
  cbv beta iota. rewrite bind_run.
  change (modify_session (set_model_name (st_selectbox models.*1 (w_model w))) world)
    with (Ok tt, with_session (set_model_name (st_selectbox models.*1 (w_model w))) world).
  cbv beta iota. rewrite bind_run. unfold lift at 1. rewrite Hsel.
  cbv beta iota zeta.
  fold (system_prompt_disabled mc). fold (live_system_prompt mc w).
  match goal with
  | |- context [if negb _ then <[_ := _]> ?b else _] => set (base := b)
  end.
  assert (Hbase : base !! "system" = None).
  { subst base. rewrite !lookup_insert_ne by discriminate. apply lookup_empty. }
  assert (Hfield :
    (if negb (system_prompt_disabled mc)
     then <["system" := live_system_prompt mc w]> base else base) !! "system" =
    (if system_prompt_disabled mc then None else Some (live_system_prompt mc w))).
  { destruct (system_prompt_disabled mc); cbn.
    - exact Hbase.
    - apply lookup_insert_eq. }
  eexists _, _, _. split; [reflexivity |].
  split; [exact Hfield |]. split.
  - intros Hflag. apply not_elem_of_dom. rewrite Hfield.
    unfold system_prompt_disabled, config_get. rewrite Hflag. reflexivity.
  - intros Hflag. rewrite Hfield.
    unfold system_prompt_disabled, config_get.
    destruct Hflag as [-> | ->]; reflexivity.
Qed.

Lemma system_prompt_field_witness :
  (∃ (model_kwargs : gmap string PyVal) (memory_window : PyVal) (world' : World),
     render_sidebar sample_models typed_widgets fresh_world
       = (Ok (model_kwargs, memory_window), world')
     ∧ model_kwargs !! "system" = Some (VStr "Answer briefly."))
  ∧ (∃ (model_kwargs : gmap string PyVal) (memory_window : PyVal) (world' : World),
       render_sidebar sample_models titan_widgets fresh_world
         = (Ok (model_kwargs, memory_window), world')
       ∧ "system" ∉ dom model_kwargs).
Proof.
  assert (Hkey : is_Some (widget_key (session fresh_world))) by (eexists; reflexivity).
  split.
  - destruct (system_prompt_field sample_models typed_widgets fresh_world
                claude_config Hkey eq_refl)
      as (kwargs & mw & world' & Hrun & _ & _ & Hlive).
    exists kwargs, mw, world'. split; [exact Hrun |].
    exact (Hlive (or_intror eq_refl)).
  - destruct (system_prompt_field sample_models titan_widgets fresh_world
                titan_config Hkey eq_refl)
      as (kwargs & mw & world' & Hrun & _ & Hoff & _).
    exists kwargs, mw, world'. split; [exact Hrun |].
    exact (Hoff eq_refl).
Defined.

(** ** Memory bridge *)

Lemma new_message_content (type : string) (c : PyVal) (m : LcMessage) :
  new_message type c = Ok m → lc_type m = type ∧ lc_content m = c.
Proof.
  unfold new_message. intros H.
  destruct c; try discriminate.
  - injection H as <-. split; reflexivity.
  - destruct (forallb is_block l); [| discriminate].
    injection H as <-. split; reflexivity.
Qed.

(** A message whose content is in plain form is left alone. *)
Lemma format_message_plain (m : LcMessage) :
  plain (lc_content m) = true → format_message m = Ok m.
Proof.
  unfold plain, format_message. intros H.
  destruct (lc_content m) as [| | | | |l| |]; try reflexivity.
  destruct l as [|first l]; [discriminate |]. cbn.
  destruct (py_contains "role" first) as [[|]|]; try discriminate.
  reflexivity.
Qed.

(** One more pass over the value left by the loop body changes nothing,
    provided the entry wraps a plain content. *)
Lemma format_message_again (m m' : LcMessage) :
  wraps_plain m → format_message m = Ok m' → format_message m' = Ok m'.
Proof.
  intros Hplain Hfmt.
  unfold format_message in Hfmt.
  destruct (lc_content m) as [| | | | |l| |] eqn:Hc;
    try (injection Hfmt as <-; unfold format_message; rewrite Hc; reflexivity).
  destruct l as [|first l]; [discriminate |]. cbn in Hfmt.
  destruct (py_contains "role" first) as [tagged|] eqn:Htag; [| discriminate].
  cbn in Hfmt. destruct tagged.
  2:{ injection Hfmt as <-. unfold format_message. rewrite Hc. cbn.
      rewrite Htag. reflexivity. }
  destruct (String.eqb (lc_type m) "ai") eqn:Hai.
  - (* rewritten as an AI message *)
    destruct (py_item "content" first) as [c|] eqn:Hitem; [| discriminate].
    cbn in Hfmt.
    destruct (AIMessage c) as [m1|] eqn:Hnew; [| discriminate]. cbn in Hfmt.
    apply new_message_content in Hnew as [Hty Hcont].
    rewrite Hty in Hfmt. cbn in Hfmt. injection Hfmt as <-.
    apply format_message_plain. rewrite Hcont.
    apply Hplain. unfold wrapped_content. rewrite Hc.
    destruct first; try discriminate. cbn in Htag, Hitem.
    injection Htag as ->.
    destruct (assoc "content" d); [| discriminate].
    injection Hitem as ->. reflexivity.
  - cbn in Hfmt. rewrite Hc in Hfmt.
    destruct (String.eqb (lc_type m) "human") eqn:Hhu.
    + (* rewritten as a human message *)
      cbn in Hfmt.
      destruct (py_item "content" first) as [c|] eqn:Hitem; [| discriminate].
      cbn in Hfmt.
      destruct (HumanMessage c) as [m1|] eqn:Hnew; [| discriminate].
      injection Hfmt as <-.
      apply new_message_content in Hnew as [Hty Hcont].
      apply format_message_plain. rewrite Hcont.
      apply Hplain. unfold wrapped_content. rewrite Hc.
      destruct first; try discriminate. cbn in Htag, Hitem.
      injection Htag as ->.
      destruct (assoc "content" d); [| discriminate].
      injection Hitem as ->. reflexivity.
    + (* neither: the entry is stored back as it was *)
      injection Hfmt as <-. unfold format_message. rewrite Hc. cbn.
      rewrite Htag. cbn. rewrite Hai. cbn. rewrite Hhu. reflexivity.
Qed.

(** C9, as the claim states it, fails: an entry that wraps a role-tagged
    block sequence inside a role-tagged block sequence is unwrapped once by
    each pass, so the second pass changes the result of the first. *)
Lemma normalization_not_idempotent :
  ¬ (∀ ms : list LcMessage,
       (langchain_messages_format (langchain_messages_format ms).1).1
       = (langchain_messages_format ms).1).
Proof.
  intros H.
  specialize (H
    [ {| lc_type := "human";
         lc_content :=
           VList [VDict [("role", VStr "user");
                         ("content",
                          VList [VDict [("role", VStr "user");
                                        ("content", VStr "hi")]])]] |} ]).
  vm_compute in H. discriminate H.
Qed.

(** C9 (amended): for every list of memory-log entries in which each
    role-tagged entry wraps a content in plain form (a string, or a block
    sequence whose first block carries no role marker), applying the
    normalization twice yields the same list, and the same outcome, as
    applying it once. *)
Theorem normalization_idempotent_on_plain (ms : list LcMessage) :
  Forall wraps_plain ms →
  langchain_messages_format (langchain_messages_format ms).1
  = langchain_messages_format ms.
Proof.
  induction 1 as [|m ms Hm Hms IH]; [reflexivity |].
  cbn. destruct (format_message m) as [m'|e] eqn:Hfmt.
  - destruct (langchain_messages_format ms) as [rest' err] eqn:Hrest.
    cbn in *. rewrite (format_message_again m m' Hm Hfmt).
    rewrite IH. reflexivity.
  - cbn. rewrite Hfmt. reflexivity.
Qed.

Lemma normalization_idempotent_on_plain_witness :
  let ms :=
    [ {| lc_type := "human";
         lc_content :=
           VList [VDict [("role", VStr "user");
                         ("content",
                          VList [VDict [("type", VStr "text");
                                        ("text", VStr "Hello")]])]] |};
      {| lc_type := "ai"; lc_content := VStr "Hi there" |} ] in
  Forall wraps_plain ms
  ∧ (langchain_messages_format ms).2 = None
  ∧ langchain_messages_format (langchain_messages_format ms).1
    = langchain_messages_format ms.
Proof.
  intros ms.
  assert (Hplain : Forall wraps_plain ms).
  { repeat constructor; intros c Hc; vm_compute in Hc.
    - injection Hc as <-. reflexivity.
    - discriminate Hc. }
  split; [exact Hplain |]. split; [reflexivity |].
  exact (normalization_idempotent_on_plain ms Hplain).
Defined.

(** ** What a computation leaves alone *)

(** The two entries that a completed exchange writes to the memory log wrap
    a plain content whenever the formatted prompt is plain. *)
Lemma exchange_wraps_plain (formatted_prompt : PyVal) (text : string) :
  plain formatted_prompt = true →
  Forall wraps_plain (exchange formatted_prompt text).
Proof.
  intros Hplain. unfold exchange. repeat constructor; intros c Hc.
  - cbn in Hc. injection Hc as <-. exact Hplain.
  - discriminate Hc.
Qed.

#[local] Instance only_ui_preorder : PreOrder only_ui.
Proof.
  split.
  - intros w. split; reflexivity.
  - intros a b c [H1 H2] [H3 H4]. split; congruence.
Qed.

#[local] Instance same_log_preorder : PreOrder same_log.
Proof.
  split.
  - intros w. split; reflexivity.
  - intros a b c [H1 H2] [H3 H4]. split; congruence.
Qed.

#[local] Instance log_kept_preorder : PreOrder log_kept.
Proof.
  split.
  - intros w. split; [left |]; reflexivity.
  - intros a b c [H1 H2] [H3 H4]. split; [| congruence].
    destruct H1 as [H1 | [H1 H1']], H3 as [H3 | [H3 H3']].
    + left. congruence.
    + right. split; congruence.
    + right. split; congruence.
    + congruence.
Qed.

Lemma only_ui_same_log (w w' : World) : only_ui w w' → same_log w w'.
Proof. intros [H1 H2]. split; [rewrite H1 |]; done. Qed.

Lemma same_log_kept (w w' : World) : same_log w w' → log_kept w w'.
Proof. intros [H1 H2]. split; [left |]; done. Qed.

Lemma preserves_weaken {A} (R S : relation World) (m : M A) :
  (∀ w w', R w w' → S w w') → preserves R m → preserves S m.
Proof. intros HRS Hm w. apply HRS, Hm. Qed.

Section Preserves.
Context (R : relation World) `{!PreOrder R}.

Lemma preserves_ret {A} (a : A) : preserves R (mret a).
Proof. intros w. cbn. reflexivity. Qed.

Lemma preserves_raise {A} (e : Exn) : preserves R (raise e : M A).
Proof. intros w. cbn. reflexivity. Qed.

Lemma preserves_lift {A} (r : Res A) : preserves R (lift r).
Proof. intros w. cbn. reflexivity. Qed.

Lemma preserves_get_session : preserves R get_session.
Proof. intros w. cbn. reflexivity. Qed.

Lemma preserves_bind {A B} (m : M A) (k : A → M B) :
  preserves R m → (∀ a, preserves R (k a)) → preserves R (m ≫= k).
Proof.
  intros Hm Hk w. rewrite bind_run.
  specialize (Hm w). destruct (m w) as [[a|e] w']; cbn in Hm.
  - etransitivity; [exact Hm | apply Hk].
  - exact Hm.
Qed.

Lemma preserves_for_each {A} (xs : list A) (body : A → M unit) :
  (∀ x, preserves R (body x)) → preserves R (for_each xs body).
Proof.
  intros Hbody. induction xs as [|x xs IH]; cbn.
  - apply preserves_ret.
  - apply preserves_bind; [apply Hbody | intros _; exact IH].
Qed.
End Preserves.

Lemma preserves_raised_bind {A B} (R : relation World) `{!PreOrder R}
    (e : Exn) (k : A → M B) :
  preserves R (lift (Raise e) ≫= k).
Proof. intros w. cbn. reflexivity. Qed.

Lemma preserves_emit (R : relation World) (e : UiEvent) :
  (∀ w w', only_ui w w' → R w w') → preserves R (emit e).
Proof. intros HR w. apply HR. split; reflexivity. Qed.

Lemma preserves_modify_session (R : relation World) (f : SessionState → SessionState) :
  (∀ w, R w (with_session f w)) → preserves R (modify_session f).
Proof. intros HR w. apply HR. Qed.

Create HintDb frame.
#[local] Hint Resolve only_ui_same_log same_log_kept : frame.
#[local] Hint Extern 1 (only_ui _ _) => assumption : frame.

Ltac frame_step :=
  match goal with
  | |- preserves _ (mret _) => apply preserves_ret; tc_solve
  | |- preserves _ (ret _) => apply preserves_ret; tc_solve
  | |- preserves _ (raise _) => apply preserves_raise; tc_solve
  | |- preserves _ (lift _) => apply preserves_lift; tc_solve
  | |- preserves _ get_session => apply preserves_get_session; tc_solve
  | |- preserves _ (emit _) => apply preserves_emit; intros; auto with frame
  | |- preserves _ (for_each _ _) =>
      apply preserves_for_each; [tc_solve | intros ?]
  | |- preserves _ (lift (Raise _) ≫= _) => apply preserves_raised_bind; tc_solve
  | |- preserves _ (_ ≫= _) => apply preserves_bind; [tc_solve | | intros ?]
  | |- preserves _ (match ?x with _ => _ end) => destruct x
  | |- preserves _ (let (_, _) := ?x in _) => destruct x
  end.

Ltac frame := repeat frame_step.

Section Frames.
Variable models : Models.
Variable format_prompt : ChatModel → string → PyVal.
Variable llm : ChatModel → list LcMessage → LlmRun.
Variable Image_open : UploadedFile → option Image.
Variable Image_save : Image → option (list Byte.byte).

Lemma read_messages_frame (R : relation World) `{!PreOrder R} :
  preserves R read_messages.
Proof. unfold read_messages. frame. Qed.

Lemma read_langchain_messages_frame (R : relation World) `{!PreOrder R} :
  preserves R read_langchain_messages.
Proof. unfold read_langchain_messages. frame. Qed.

Lemma open_image_frame (f : UploadedFile) :
  preserves only_ui (open_image Image_open f).
Proof. unfold open_image. frame. Qed.

Lemma save_image_frame (f : UploadedFile) (img : Image) :
  preserves only_ui (save_image Image_save f img).
Proof. unfold save_image. frame. Qed.

Lemma display_image_frame (image_id : string) (files : list UploadedFile) (i : nat) :
  preserves only_ui (display_image Image_open image_id files i).
Proof.
  revert i. induction files as [|f files IH]; intros i; cbn; frame.
  - apply open_image_frame.
  - apply IH.
  - apply IH.
Qed.

Lemma display_images_frame (ids : list string) (files : list UploadedFile) :
  preserves only_ui (display_images Image_open ids files).
Proof.
  unfold display_images. generalize 0%nat.
  induction ids as [|id ids IH]; intros i; cbn; frame.
  - apply display_image_frame.
  - apply IH.
Qed.

Lemma display_user_message_frame (c : PyVal) :
  preserves only_ui (display_user_message c).
Proof. unfold display_user_message. frame. Qed.

Lemma display_assistant_message_frame (c : PyVal) :
  preserves only_ui (display_assistant_message c).
Proof. unfold display_assistant_message. frame. Qed.

Lemma display_chat_messages_frame (files : list UploadedFile) :
  preserves only_ui (display_chat_messages Image_open files).
Proof.
  unfold display_chat_messages. frame.
  - apply read_messages_frame; tc_solve.
  - unfold display_chat_message. frame;
      first [ apply display_images_frame
            | apply display_user_message_frame
            | apply display_assistant_message_frame ].
Qed.

Lemma display_uploaded_images_frame (files : list UploadedFile)
    (consumed : list string) (ids : list string) :
  preserves only_ui
    (display_uploaded_images Image_open Image_save files consumed ids).
Proof.
  unfold display_uploaded_images. generalize 0%nat (@nil PyVal).
  revert ids. induction files as [|f files IH]; intros ids i blocks; cbn; frame.
  - apply IH.
  - apply open_image_frame.
  - apply save_image_frame.
  - apply IH.
Qed.

Lemma render_sidebar_frame (w : Widgets) :
  preserves same_log (render_sidebar models w).
Proof.
  intros world. destruct (widget_key (session world)) as [key|] eqn:Hkey.
  - rewrite render_sidebar_world by eauto. split; reflexivity.
  - rewrite render_sidebar_unkeyed by exact Hkey. reflexivity.
Qed.

Lemma init_conversationchain_frame (cm : ChatModel) (mw : PyVal) :
  preserves log_kept (init_conversationchain cm mw).
Proof.
  intros w. destruct mw as [| |k| | | | |];
    try (destruct w as [[wk mn ms [lm|] fk] u c]; cbv;
         (split; [left |]; reflexivity)).
  rewrite init_conversationchain_run. cbn. split; [| reflexivity].
  destruct (messages (session w)); [left | right]; done.
Qed.

Lemma main_setup_frame (inp : Inputs) :
  preserves log_kept (main_setup models Image_open inp).
Proof.
  unfold main_setup. frame;
    try (apply preserves_modify_session; intros w; split; [left |]; reflexivity).
  - eapply preserves_weaken; [| apply render_sidebar_frame]. auto with frame.
  - apply init_conversationchain_frame.
  - eapply preserves_weaken; [| apply display_chat_messages_frame].
    auto with frame.
Qed.

Lemma normalize_memory_frame : preserves same_log normalize_memory.
Proof.
  unfold normalize_memory. frame;
    try (apply preserves_modify_session; intros w; split; reflexivity).
  all: apply read_langchain_messages_frame; tc_solve.
Qed.

Lemma stage_prompt_nothing_frame (cm : ChatModel) (files : list UploadedFile)
    (prompt : option string) :
  submitted prompt = None →
  preserves only_ui
    (stage_prompt format_prompt Image_open Image_save cm files prompt).
Proof.
  intros Hp. unfold stage_prompt. rewrite Hp. frame.
  - apply read_messages_frame; tc_solve.
  - apply display_uploaded_images_frame.
Qed.

Lemma respond_unassigned_frame (chain : ConversationChain) :
  preserves only_ui (respond llm chain None).
Proof.
  unfold respond. cbv beta iota. frame.
  apply read_messages_frame; tc_solve.
Qed.
End Frames.

Lemma bind_ok_inv {A B} (m : M A) (k : A → M B) (w w' : World) (b : B) :
  (m ≫= k) w = (Ok b, w') → ∃ a w1, m w = (Ok a, w1) ∧ k a w1 = (Ok b, w').
Proof.
  rewrite bind_run. destruct (m w) as [[a|e] w1]; [| discriminate].
  intros H. exists a, w1. split; [reflexivity | exact H].
Qed.

Lemma preserves_bind_post {A B} (R : relation World) `{!PreOrder R}
    (P : A → Prop) (m : M A) (k : A → M B) :
  (∀ w a w', m w = (Ok a, w') → P a) →
  preserves R m → (∀ a, P a → preserves R (k a)) → preserves R (m ≫= k).
Proof.
  intros HP Hm Hk w. rewrite bind_run.
  specialize (Hm w). specialize (HP w).
  destruct (m w) as [[a|e] w']; cbn in Hm.
  - etransitivity; [exact Hm | apply Hk, (HP a w'); reflexivity].
  - exact Hm.
Qed.

(** ** Turn driver *)

Ltac run_monad :=
  cbv beta iota zeta delta
    [mbind M_bind bind mret M_ret ret lift raise emit get_session modify_session
     log_call read_messages read_langchain_messages append_message];
  cbn [session ui llm_calls messages langchain_messages widget_key model_name
       file_uploader_key fst snd].

Ltac run_session :=
  cbv beta iota zeta delta
    [mbind M_bind bind mret M_ret ret lift raise emit get_session modify_session
     log_call read_messages read_langchain_messages append_message
     set_widget_key set_model_name set_messages set_langchain_messages
     set_file_uploader_key with_session with_ui];
  cbn [session ui llm_calls messages langchain_messages widget_key model_name
       file_uploader_key fst snd].

Section Turns.
Variable models : Models.
Variable format_prompt : ChatModel → string → PyVal.
Variable llm : ChatModel → list LcMessage → LlmRun.
Variable Image_open : UploadedFile → option Image.
Variable Image_save : Image → option (list Byte.byte).

Local Abbreviation stage_prompt' :=
  (stage_prompt format_prompt Image_open Image_save).
Local Abbreviation main' := (main models format_prompt llm Image_open Image_save).
Local Abbreviation main_setup' := (main_setup models Image_open).
Local Abbreviation respond' := (respond llm).

(** Without a submitted prompt no assignment to [formatted_prompt] runs. *)
Lemma stage_prompt_unassigned (cm : ChatModel) (files : list UploadedFile)
    (prompt : option string) (w w' : World) (r : option PyVal) :
  submitted prompt = None →
  stage_prompt' cm files prompt w = (Ok r, w') → r = None.
Proof.
  intros Hp. unfold stage_prompt. rewrite Hp. intros H.
  apply bind_ok_inv in H as (ms & w1 & _ & H).
  destruct (bool_decide (files ≠ []) && _).
  - apply bind_ok_inv in H as (_ & w2 & _ & H).
    apply bind_ok_inv in H as ([blocks ids] & w3 & _ & H).
    unfold mret, M_ret, ret in H. congruence.
  - unfold mret, M_ret, ret in H. congruence.
Qed.

Lemma main_without_prompt (inp : Inputs) :
  submitted (in_prompt inp) = None → preserves log_kept (main' inp).
Proof.
  intros Hp. unfold main.
  apply preserves_bind; [tc_solve | apply main_setup_frame |].
  intros [cm chain].
  apply (preserves_bind_post _ (fun r => r = None)).
  - intros w r w'. apply stage_prompt_unassigned, Hp.
  - eapply preserves_weaken; [| apply stage_prompt_nothing_frame, Hp].
    auto with frame.
  - intros r ->. apply preserves_bind; [tc_solve | |].
    + eapply preserves_weaken; [| apply normalize_memory_frame].
      auto with frame.
    + intros _. eapply preserves_weaken; [| apply respond_unassigned_frame].
      auto with frame.
Qed.

(** C4: in every run of the script in which no prompt text is submitted,
    whether or not the upload widget holds attachments, no message is
    appended to the session's messages and the model is not called: a
    message log that exists is left as it is (one that does not exist yet
    can only be created with the greeting in it). *)
Theorem empty_prompt_drives_no_turn (inp : Inputs) (w : World) :
  submitted (in_prompt inp) = None →
  let w' := (main' inp w).2 in
  llm_calls w' = llm_calls w
  ∧ (∀ ms, messages (session w) = Some ms → messages (session w') = Some ms)
  ∧ (messages (session w) = None →
     messages (session w') = None ∨ messages (session w') = Some [INIT_MESSAGE]).
Proof.
  intros Hp w'. destruct (main_without_prompt inp Hp w) as [Hms Hcalls].
  fold w' in Hms, Hcalls. split; [exact Hcalls |]. split.
  - intros ms Hsome. destruct Hms as [Hms | [Hnone _]]; congruence.
  - intros Hnone. destruct Hms as [Hms | [_ Hms]]; [left | right]; congruence.
Qed.

(** *** The assistant's turn *)

Lemma stream_tokens_run (h : StreamHandler) (tokens : list string) (w : World) :
  ∃ h', stream_tokens h tokens w =
    (Ok h', with_ui (UiStream <$> buffers (sh_text h) tokens) w).
Proof.
  revert h w. induction tokens as [|t ts IH]; intros h w.
  - exists h. destruct w as [s u c]. cbn. unfold with_ui. cbn.
    rewrite app_nil_r. reflexivity.
  - cbn [stream_tokens buffers].
    destruct (IH {| sh_text := sh_text h +:+ t |}
                (with_ui [UiStream (sh_text h +:+ t)] w)) as [h' Hh'].
    exists h'. unfold on_llm_new_token. rewrite !bind_run. cbn.
    cbn in Hh'. unfold with_ui in *. cbn in *.
    rewrite <- app_assoc in Hh'. exact Hh'.
Qed.

Lemma buffers_length (acc : string) (tokens : list string) :
  length (buffers acc tokens) = length tokens.
Proof.
  revert acc. induction tokens as [|t ts IH]; intros acc; cbn; [done |].
  by rewrite IH.
Qed.

Lemma placeholder_turn (fpv : PyVal) (turn : LcMessage) :
  HumanMessage fpv = Ok turn →
  placeholder_messages [VDict [("role", VStr "user"); ("content", fpv)]]
  = Ok [turn].
Proof. intros H. cbn. rewrite H. reflexivity. Qed.

(** The last statement of [main] when the last message is not the
    assistant's and [formatted_prompt] is assigned: the model is called
    once, on the window of the memory log followed by the new turn; its
    tokens are drawn one by one; when it returns, the response is appended
    and the exchange saved; when it raises, nothing is appended. *)
Lemma respond_run (chain : ConversationChain) (fpv : PyVal) (w : World)
    (ms : list Message) (final : Message) (mem : list LcMessage)
    (turn : LcMessage) :
  messages (session w) = Some ms →
  last ms = Some final →
  String.eqb (role final) "assistant" = false →
  langchain_messages (session w) = Some mem →
  HumanMessage fpv = Ok turn →
  let history := window (chain_k chain) mem in
  let context := history ++ [turn] in
  let run := llm (chain_llm chain) context in
  let shown := ui w ++ streamed (run_tokens run) in
  let calls :=
    llm_calls w ++ [{| call_model := chain_llm chain; call_context := context |}] in
  respond' chain (Some fpv) w =
  match run_result run with
  | Ok text =>
      (Ok tt,
       {| session :=
            set_messages (Some (ms ++ [answer fpv history text]))
              (set_langchain_messages (Some (mem ++ exchange fpv text))
                 (session w));
          ui := shown; llm_calls := calls |})
  | Raise e =>
      (Raise e, {| session := session w; ui := shown; llm_calls := calls |})
  end.
Proof.
  intros Hms Hlast Hrole Hmem Hturn history context run shown calls.
  destruct w as [[wk mn oms omem fk] u c]. cbn in Hms, Hmem. subst oms omem.
  unfold respond, generate_response, ConversationChain_invoke, CLAUDE_PROMPT.
  run_monad. rewrite Hlast. run_monad. rewrite Hrole. cbn [negb]. run_monad.
  rewrite (placeholder_turn fpv turn Hturn).
  fold (window (chain_k chain) mem). fold history. fold context. fold run.
  match goal with
  | |- context [stream_tokens ?h ?ts ?w0] =>
      destruct (stream_tokens_run h ts w0) as [h' ->]
  end.
  unfold with_ui. run_monad.
  subst shown calls. unfold streamed. cbn [sh_text StreamHandler_init ui].
  rewrite <- app_assoc. cbn [app].
  destruct (run_result run) as [text|e]; reflexivity.
Qed.


(** *** The steps of [main] in sequence *)

Lemma main_steps (inp : Inputs) (w w1 w2 w3 : World) (cm : ChatModel)
    (chain : ConversationChain) (fpo : option PyVal) :
  main_setup' inp w = (Ok (cm, chain), w1) →
  stage_prompt' cm (in_uploaded inp) (in_prompt inp) w1 = (Ok fpo, w2) →
  normalize_memory w2 = (Ok tt, w3) →
  main' inp w = respond' chain fpo w3.
Proof.
  intros H1 H2 H3. unfold main.
  rewrite (bind_ok _ _ _ _ _ H1). cbv beta iota.
  rewrite (bind_ok _ _ _ _ _ H2).
  rewrite (bind_ok _ _ _ _ _ H3). reflexivity.
Qed.

Lemma read_messages_inv (w w' : World) (ms : list Message) :
  read_messages w = (Ok ms, w') → w' = w ∧ messages (session w) = Some ms.
Proof.
  unfold read_messages. run_monad.
  destruct (messages (session w)); intros H; inversion H; done.
Qed.

Lemma read_langchain_messages_inv (w w' : World) (mem : list LcMessage) :
  read_langchain_messages w = (Ok mem, w') →
  w' = w ∧ langchain_messages (session w) = Some mem.
Proof.
  unfold read_langchain_messages. run_monad.
  destruct (langchain_messages (session w)); intros H; inversion H; done.
Qed.

Lemma normalize_memory_inv (w w' : World) :
  normalize_memory w = (Ok tt, w') →
  ∃ mem, langchain_messages (session w) = Some mem
    ∧ langchain_messages_format mem = ((langchain_messages_format mem).1, None)
    ∧ w' = with_session
             (set_langchain_messages (Some (langchain_messages_format mem).1)) w.
Proof.
  unfold normalize_memory. intros H.
  apply bind_ok_inv in H as (mem & w1 & Hread & H).
  apply read_langchain_messages_inv in Hread as [-> Hmem].
  exists mem. split; [exact Hmem |].
  destruct (langchain_messages_format mem) as [mem' [e|]]; revert H; run_monad;
    intros H; inversion H. split; reflexivity.
Qed.

(** When [stage_prompt] assigns [formatted_prompt], it has appended one
    user message that carries it, and touched nothing else in the session. *)
Lemma stage_prompt_assigned (cm : ChatModel) (files : list UploadedFile)
    (prompt : option string) (w w' : World) (fpv : PyVal) :
  stage_prompt' cm files prompt w = (Ok (Some fpv), w') →
  ∃ ms imgs,
    messages (session w) = Some ms
    ∧ session w' =
        set_messages
          (Some (ms ++ [{| role := "user"; content := fpv; images := imgs |}]))
          (session w)
    ∧ llm_calls w' = llm_calls w.
Proof.
  unfold stage_prompt. intros H.
  apply bind_ok_inv in H as (ms & w1 & Hread & H).
  apply read_messages_inv in Hread as [-> Hms].
  exists ms.
  destruct (bool_decide (files ≠ []) && _).
  - apply bind_ok_inv in H as ([] & w2 & Hemit & H).
    apply bind_ok_inv in H as ([blocks ids] & w3 & Hshow & H).
    pose proof (display_uploaded_images_frame Image_open Image_save files
                  (consumed_ids ms) [] w2) as Hframe.
    rewrite Hshow in Hframe. destruct Hframe as [Hs3 Hc3]. cbn in Hs3, Hc3.
    injection Hemit as <-. cbn in Hs3, Hc3.
    destruct (submitted prompt) as [p|]; [| revert H; run_monad; congruence].
    apply bind_ok_inv in H as (fp & w4 & Hfp & H).
    revert Hfp. unfold lift.
    destruct (append_blocks (format_prompt cm p) blocks) as [fp'|e];
      intros Hfp; inversion Hfp; subst fp' w4. clear Hfp.
    revert H. unfold append_message. run_monad. rewrite Hs3, Hms.
    intros H. inversion H. subst. eexists. cbn. rewrite Hs3. done.
  - destruct (submitted prompt) as [p|]; [| revert H; run_monad; congruence].
    revert H. unfold append_message. run_monad. rewrite Hms.
    intros H. inversion H. subst. eexists. cbn. done.
Qed.

(** A submitted prompt is always assigned. *)
Lemma stage_prompt_assigns (cm : ChatModel) (files : list UploadedFile)
    (prompt : option string) (p : string) (w w' : World) :
  submitted prompt = Some p →
  stage_prompt' cm files prompt w ≠ (Ok None, w').
Proof.
  intros Hp H. revert H. unfold stage_prompt. rewrite Hp. intros H.
  apply bind_ok_inv in H as (ms & w1 & _ & H).
  destruct (bool_decide (files ≠ []) && _).
  - apply bind_ok_inv in H as (_ & w2 & _ & H).
    apply bind_ok_inv in H as ([blocks ids] & w3 & _ & H).
    apply bind_ok_inv in H as (fp & w4 & _ & H).
    apply bind_ok_inv in H as (_ & w5 & _ & H).
    apply bind_ok_inv in H as (_ & w6 & _ & H).
    revert H. run_monad. congruence.
  - apply bind_ok_inv in H as (_ & w5 & _ & H).
    apply bind_ok_inv in H as (_ & w6 & _ & H).
    apply bind_ok_inv in H as (_ & w7 & _ & H).
    revert H. run_monad. congruence.
Qed.

(** When [stage_prompt] returns without assigning, it left the session and
    the record of calls as they were. *)
Lemma stage_prompt_unassigned_session (cm : ChatModel) (files : list UploadedFile)
    (prompt : option string) (w w' : World) :
  stage_prompt' cm files prompt w = (Ok None, w') → only_ui w w'.
Proof.
  intros H. destruct (submitted prompt) as [p|] eqn:Hp.
  - exfalso. exact (stage_prompt_assigns cm files prompt p w w' Hp H).
  - pose proof (stage_prompt_nothing_frame format_prompt Image_open Image_save
                  cm files prompt Hp w) as Hframe.
    rewrite H in Hframe. exact Hframe.
Qed.

Lemma init_conversationchain_inv (cm : ChatModel) (mw : PyVal) (w w' : World)
    (chain : ConversationChain) :
  init_conversationchain cm mw w = (Ok chain, w') →
  ∃ k, mw = VInt k ∧ chain = {| chain_llm := cm; chain_k := k |}
    ∧ is_Some (messages (session w'))
    ∧ is_Some (langchain_messages (session w')).
Proof.
  destruct mw as [| |k| | | | |];
    try (destruct w as [[wk mn ms [lm|] fk] u c]; cbv; discriminate).
  rewrite init_conversationchain_run. intros H. inversion H. subst.
  exists k. cbn. eauto.
Qed.

(** What [main_setup] has established when it returns: the chat model
    carries the parameters read from the sidebar, the chain calls that
    model with the sidebar's memory window, and both logs exist. *)
Lemma main_setup_inv (inp : Inputs) (w w1 : World) (cm : ChatModel)
    (chain : ConversationChain) :
  main_setup' inp w = (Ok (cm, chain), w1) →
  ∃ kwargs k,
    inference_parameters models (in_widgets inp) = Ok (kwargs, VInt k)
    ∧ cm = {| cm_model_name := st_selectbox (models.*1) (w_model (in_widgets inp));
              cm_model_kwargs := kwargs |}
    ∧ chain = {| chain_llm := cm; chain_k := k |}
    ∧ is_Some (messages (session w1))
    ∧ is_Some (langchain_messages (session w1)).
Proof.
  unfold main_setup. intros H.
  apply bind_ok_inv in H as (s0 & wa & _ & H).
  apply bind_ok_inv in H as (_ & wb & _ & H).
  apply bind_ok_inv in H as ([kwargs mw] & wc & Hside & H).
  apply render_sidebar_ok_inv in Hside as [Hpar Hwc].
  apply bind_ok_inv in H as (s1 & wc' & Hget & H).
  inversion Hget. subst s1 wc'. clear Hget.
  apply bind_ok_inv in H as (chain' & wd & Hinit & H).
  apply init_conversationchain_inv in Hinit as (k & -> & Hchain & Hms & Hmem).
  apply bind_ok_inv in H as (s2 & wd' & Hget & H).
  inversion Hget. subst s2 wd'. clear Hget.
  apply bind_ok_inv in H as ([] & we & Hkey & H).
  assert (Hwe : messages (session we) = messages (session wd)
                ∧ langchain_messages (session we) = langchain_messages (session wd)).
  { destruct (file_uploader_key (session wd)); inversion Hkey; done. }
  apply bind_ok_inv in H as (s3 & we' & Hget & H).
  inversion Hget. subst s3 we'. clear Hget.
  apply bind_ok_inv in H as (mc & wf & Hitem & H).
  inversion Hitem. subst wf.
  apply bind_ok_inv in H as ([] & wg & Hshow & H).
  pose proof (display_chat_messages_frame Image_open (in_uploaded inp) we)
    as Hframe.
  rewrite Hshow in Hframe. destruct Hframe as [Hsg _]. cbn in Hsg.
  inversion H. subst. exists kwargs, k.
  rewrite Hsg. destruct Hwe as [-> ->]. cbn. done.
Qed.

(** The three steps before the answer make no call to the model. *)
Lemma steps_call_nothing (inp : Inputs) (w w1 w2 w3 : World) (cm : ChatModel)
    (chain : ConversationChain) (fpo : option PyVal) :
  main_setup' inp w = (Ok (cm, chain), w1) →
  stage_prompt' cm (in_uploaded inp) (in_prompt inp) w1 = (Ok fpo, w2) →
  normalize_memory w2 = (Ok tt, w3) →
  llm_calls w3 = llm_calls w
  ∧ messages (session w3) = messages (session w2).
Proof.
  intros H1 H2 H3.
  pose proof (main_setup_frame models Image_open inp w) as F1.
  rewrite H1 in F1. destruct F1 as [_ F1]. cbn in F1.
  pose proof (normalize_memory_frame w2) as F3.
  rewrite H3 in F3. destruct F3 as [F3m F3]. cbn in F3, F3m.
  assert (F2 : llm_calls w2 = llm_calls w1).
  { destruct fpo as [fpv|].
    - apply stage_prompt_assigned in H2 as (ms & imgs & _ & _ & H2). exact H2.
    - apply stage_prompt_unassigned_session in H2. apply H2. }
  split; congruence.
Qed.


(** A run in which a prompt was staged and the memory normalized: the
    whole run, spelled out. *)
Lemma turn_run (inp : Inputs) (w w1 w2 w3 : World) (cm : ChatModel)
    (chain : ConversationChain) (fpv : PyVal) (turn : LcMessage) :
  main_setup' inp w = (Ok (cm, chain), w1) →
  stage_prompt' cm (in_uploaded inp) (in_prompt inp) w1 = (Ok (Some fpv), w2) →
  normalize_memory w2 = (Ok tt, w3) →
  HumanMessage fpv = Ok turn →
  ∃ ms imgs mem kwargs k,
    let user := {| role := "user"; content := fpv; images := imgs |} in
    let history := window k mem in
    let context := history ++ [turn] in
    let run := llm cm context in
    let shown := ui w3 ++ streamed (run_tokens run) in
    let calls := llm_calls w ++ [{| call_model := cm; call_context := context |}] in
    messages (session w1) = Some ms
    ∧ messages (session w3) = Some (ms ++ [user])
    ∧ langchain_messages (session w3) = Some mem
    ∧ inference_parameters models (in_widgets inp) = Ok (kwargs, VInt k)
    ∧ cm_model_kwargs cm = kwargs
    ∧ chain = {| chain_llm := cm; chain_k := k |}
    ∧ main' inp w =
      match run_result run with
      | Ok text =>
          (Ok tt,
           {| session :=
                set_messages (Some ((ms ++ [user]) ++ [answer fpv history text]))
                  (set_langchain_messages (Some (mem ++ exchange fpv text))
                     (session w3));
              ui := shown; llm_calls := calls |})
      | Raise e =>
          (Raise e, {| session := session w3; ui := shown; llm_calls := calls |})
      end.
Proof.
  intros H1 H2 H3 Hturn.
  destruct (steps_call_nothing inp w w1 w2 w3 cm chain _ H1 H2 H3)
    as [Hcalls Hms3].
  pose proof (main_steps inp w w1 w2 w3 cm chain _ H1 H2 H3) as Hmain.
  apply main_setup_inv in H1 as (kwargs & k & Hpar & Hcm & Hchain & _ & _).
  apply stage_prompt_assigned in H2 as (ms & imgs & Hms1 & Hs2 & _).
  apply normalize_memory_inv in H3 as (mem2 & Hmem2 & _ & Hw3).
  exists ms, imgs, (langchain_messages_format mem2).1, kwargs, k.
  cbv zeta.
  assert (Hms : messages (session w3)
                = Some (ms ++ [{| role := "user"; content := fpv; images := imgs |}])).
  { rewrite Hms3, Hs2. reflexivity. }
  assert (Hmem : langchain_messages (session w3)
                 = Some (langchain_messages_format mem2).1).
  { rewrite Hw3. reflexivity. }
  split; [exact Hms1 |]. split; [exact Hms |]. split; [exact Hmem |].
  split; [exact Hpar |]. split; [rewrite Hcm; reflexivity |].
  split; [exact Hchain |].
  rewrite Hmain.
  rewrite (respond_run chain fpv w3 _ _ _ turn Hms (last_snoc _ _) eq_refl
             Hmem Hturn).
  rewrite Hchain, Hcalls. reflexivity.
Qed.

(** C8: whenever a run has appended a new user message and reaches the
    answer, the model is called once, with the chat model built from the
    live sidebar parameters, on the full context: the prior turns inside
    the memory window followed by the new turn; and each token it streams
    is appended to the display buffer, which is redrawn after every
    token. *)
Theorem model_sees_window_and_turn (inp : Inputs) (w w1 w2 w3 : World)
    (cm : ChatModel) (chain : ConversationChain) (fpo : option PyVal) :
  main_setup' inp w = (Ok (cm, chain), w1) →
  stage_prompt' cm (in_uploaded inp) (in_prompt inp) w1 = (Ok fpo, w2) →
  messages (session w2) ≠ messages (session w1) →
  normalize_memory w2 = (Ok tt, w3) →
  ∃ fpv ms imgs mem kwargs k,
    fpo = Some fpv
    ∧ messages (session w1) = Some ms
    ∧ messages (session w3)
      = Some (ms ++ [{| role := "user"; content := fpv; images := imgs |}])
    ∧ langchain_messages (session w3) = Some mem
    ∧ inference_parameters models (in_widgets inp) = Ok (kwargs, VInt k)
    ∧ cm_model_kwargs cm = kwargs
    ∧ ∀ turn, HumanMessage fpv = Ok turn →
        let context := window k mem ++ [turn] in
        let run := llm cm context in
        let w' := (main' inp w).2 in
        lc_type turn = "human" ∧ lc_content turn = fpv
        ∧ llm_calls w'
          = llm_calls w ++ [{| call_model := cm; call_context := context |}]
        ∧ ui w'
          = ui w3 ++ UiChatMessage "assistant"
                   :: (UiStream <$> buffers "" (run_tokens run))
        ∧ length (buffers "" (run_tokens run)) = length (run_tokens run).
Proof.
  intros H1 H2 Hnew H3.
  destruct fpo as [fpv|].
  2:{ exfalso. apply Hnew.
      apply stage_prompt_unassigned_session in H2 as [-> _]. reflexivity. }
  exists fpv.
  assert (Hany : ∀ turn, HumanMessage fpv = Ok turn → _) by
    (intros turn Hturn; exact (turn_run inp w w1 w2 w3 cm chain fpv turn
                                 H1 H2 H3 Hturn)).
  pose proof H1 as H1'.
  apply main_setup_inv in H1' as (kwargs & k & Hpar & Hcm & Hchain & _ & _).
  pose proof H2 as H2'.
  apply stage_prompt_assigned in H2' as (ms & imgs & Hms1 & Hs2 & _).
  pose proof H3 as H3'.
  apply normalize_memory_inv in H3' as (mem2 & Hmem2 & _ & Hw3).
  destruct (steps_call_nothing inp w w1 w2 w3 cm chain _ H1 H2 H3)
    as [Hcalls Hms3].
  exists ms, imgs, (langchain_messages_format mem2).1, kwargs, k.
  split; [reflexivity |]. split; [exact Hms1 |].
  split; [rewrite Hms3, Hs2; reflexivity |].
  split; [rewrite Hw3; reflexivity |].
  split; [exact Hpar |]. split; [rewrite Hcm; reflexivity |].
  intros turn Hturn. cbv zeta.
  destruct (Hany turn Hturn)
    as (ms' & imgs' & mem' & kwargs' & k' & _ & _ & Hmem' & Hpar' & _ & _ & Hmain).
  cbv zeta in Hmain.
  assert (k' = k) as -> by congruence.
  assert (mem' = (langchain_messages_format mem2).1) as ->.
  { rewrite Hw3 in Hmem'. cbn in Hmem'. congruence. }
  destruct (new_message_content _ _ _ Hturn) as [Hty Hcont].
  split; [exact Hty |]. split; [exact Hcont |].
  rewrite Hmain.
  split; [| split; [| apply buffers_length]].
  - destruct (run_result _); reflexivity.
  - destruct (run_result _); reflexivity.
Qed.

(** C7 (amended): in a run that staged a prompt, the model is called
    exactly once (no retry).  If the call returns, even after streaming no
    token at all, the response it returned is appended as the assistant's
    message, after the user's.  If the call raises, the exception ends the
    run: nothing is appended, the user's message stays last, and neither
    the streamed buffer nor the exchange is saved. *)
Theorem failed_call_appends_nothing (inp : Inputs) (w w1 w2 w3 : World)
    (cm : ChatModel) (chain : ConversationChain) (fpv : PyVal)
    (turn : LcMessage) :
  main_setup' inp w = (Ok (cm, chain), w1) →
  stage_prompt' cm (in_uploaded inp) (in_prompt inp) w1 = (Ok (Some fpv), w2) →
  normalize_memory w2 = (Ok tt, w3) →
  HumanMessage fpv = Ok turn →
  ∃ ms user mem,
    let history := window (chain_k chain) mem in
    let run := llm cm (history ++ [turn]) in
    let r := main' inp w in
    messages (session w3) = Some (ms ++ [user])
    ∧ role user = "user" ∧ content user = fpv
    ∧ langchain_messages (session w3) = Some mem
    ∧ llm_calls r.2
      = llm_calls w ++ [{| call_model := cm; call_context := history ++ [turn] |}]
    ∧ (∀ text, run_result run = Ok text →
         r.1 = Ok tt
         ∧ messages (session r.2) = Some (ms ++ [user; answer fpv history text])
         ∧ role (answer fpv history text) = "assistant")
    ∧ (∀ e, run_result run = Raise e →
         r.1 = Raise e
         ∧ messages (session r.2) = Some (ms ++ [user])
         ∧ langchain_messages (session r.2) = Some mem).
Proof.
  intros H1 H2 H3 Hturn.
  destruct (turn_run inp w w1 w2 w3 cm chain fpv turn H1 H2 H3 Hturn)
    as (ms & imgs & mem & kwargs & k & _ & Hms & Hmem & _ & _ & Hchain & Hmain).
  cbv zeta in Hmain, Hms.
  exists ms, {| role := "user"; content := fpv; images := imgs |}, mem.
  cbv zeta. rewrite Hchain. cbn [chain_k].
  split; [exact Hms |]. split; [reflexivity |]. split; [reflexivity |].
  split; [exact Hmem |]. rewrite Hmain.
  split; [destruct (run_result _); reflexivity |]. split.
  - intros text ->. cbn. rewrite <- app_assoc. done.
  - intros e ->. cbn. done.
Qed.

(** C10: in a run without a submitted prompt whose message log ends with a
    user message, the answer step finds [formatted_prompt] unassigned: the
    run raises, appends no message and calls no model; and when the
    statements before the answer step complete, the exception is the
    unbound-local error on [formatted_prompt]. *)
Theorem unassigned_prompt_fails (inp : Inputs) (w : World) (ms : list Message)
    (final : Message) :
  submitted (in_prompt inp) = None →
  messages (session w) = Some ms →
  last ms = Some final →
  role final = "user" →
  (∃ e, (main' inp w).1 = Raise e)
  ∧ messages (session (main' inp w).2) = Some ms
  ∧ llm_calls (main' inp w).2 = llm_calls w
  ∧ (∀ cm chain w1 fpo w2 w3,
       main_setup' inp w = (Ok (cm, chain), w1) →
       stage_prompt' cm (in_uploaded inp) (in_prompt inp) w1 = (Ok fpo, w2) →
       normalize_memory w2 = (Ok tt, w3) →
       fpo = None
       ∧ main' inp w = (Raise (UnboundLocalError "formatted_prompt"),
                        with_ui [UiChatMessage "assistant"] w3)).
Proof.
  intros Hp Hms Hlast Hrole.
  assert (Hreached : ∀ cm chain w1 fpo w2 w3,
       main_setup' inp w = (Ok (cm, chain), w1) →
       stage_prompt' cm (in_uploaded inp) (in_prompt inp) w1 = (Ok fpo, w2) →
       normalize_memory w2 = (Ok tt, w3) →
       fpo = None
       ∧ main' inp w = (Raise (UnboundLocalError "formatted_prompt"),
                        with_ui [UiChatMessage "assistant"] w3)).
  { intros cm chain w1 fpo w2 w3 H1 H2 H3.
    pose proof (stage_prompt_unassigned _ _ _ _ _ _ Hp H2) as ->.
    split; [reflexivity |].
    rewrite (main_steps inp w w1 w2 w3 cm chain None H1 H2 H3).
    destruct (steps_call_nothing inp w w1 w2 w3 cm chain _ H1 H2 H3)
      as [_ Hms3].
    apply stage_prompt_unassigned_session in H2 as [Hs2 _].
    pose proof (main_setup_frame models Image_open inp w) as F1.
    rewrite H1 in F1. destruct F1 as [[F1 | [F1 _]] _]; [| congruence].
    cbn in F1.
    assert (Hms' : messages (session w3) = Some ms) by congruence.
    unfold respond. run_monad. rewrite Hms'. run_monad. rewrite Hlast.
    run_monad. rewrite Hrole. reflexivity. }
  destruct (main_without_prompt inp Hp w) as [Hkept Hcalls].
  split; [| split; [| split; [exact Hcalls | exact Hreached]]].
  - destruct (main_setup' inp w) as [[[cm chain]|e] w1] eqn:H1.
    2:{ unfold main. rewrite (bind_raise _ _ _ _ _ H1). eauto. }
    destruct (stage_prompt' cm (in_uploaded inp) (in_prompt inp) w1)
      as [[fpo|e] w2] eqn:H2.
    2:{ unfold main. rewrite (bind_ok _ _ _ _ _ H1). cbv beta iota.
        rewrite (bind_raise _ _ _ _ _ H2). eauto. }
    destruct (normalize_memory w2) as [[[]|e] w3] eqn:H3.
    2:{ unfold main. rewrite (bind_ok _ _ _ _ _ H1). cbv beta iota.
        rewrite (bind_ok _ _ _ _ _ H2).
        rewrite (bind_raise _ _ _ _ _ H3). eauto. }
    destruct (Hreached cm chain w1 fpo w2 w3 eq_refl H2 H3) as [_ Hmain].
    rewrite Hmain. eauto.
  - destruct Hkept as [Hkept | [Hnone _]]; congruence.
Qed.

(** *** The first turn of a session *)

Lemma inference_parameters_selected (w : Widgets) (x : gmap string PyVal * PyVal) :
  inference_parameters models w = Ok x →
  ∃ mc, models_item models (st_selectbox (models.*1) (w_model w)) = Ok mc.
Proof.
  unfold inference_parameters, render_sidebar. rewrite !bind_run. cbn.
  destruct (models_item models (st_selectbox (models.*1) (w_model w))) as [mc|e].
  - eauto.
  - discriminate.
Qed.

Lemma display_greeting (files : list UploadedFile) (w : World) :
  messages (session w) = Some [INIT_MESSAGE] →
  display_chat_messages Image_open files w =
  (Ok tt, with_ui [UiChatMessage "assistant"; UiMarkdown (content INIT_MESSAGE)] w).
Proof.
  intros Hms. unfold display_chat_messages. run_monad. rewrite Hms.
  unfold with_ui.
  destruct files; cbn; run_monad; unfold display_chat_message; cbn; run_monad;
    rewrite <- app_assoc; reflexivity.
Qed.

Lemma main_setup_greeting (inp : Inputs) (w : World) (kwargs : gmap string PyVal)
    (k : Z) :
  messages (session w) = Some [INIT_MESSAGE] →
  inference_parameters models (in_widgets inp) = Ok (kwargs, VInt k) →
  let cm := {| cm_model_name := st_selectbox (models.*1) (w_model (in_widgets inp));
               cm_model_kwargs := kwargs |} in
  ∃ w1, main_setup' inp w = (Ok (cm, {| chain_llm := cm; chain_k := k |}), w1)
    ∧ messages (session w1) = Some [INIT_MESSAGE]
    ∧ langchain_messages (session w1)
      = Some (default [] (langchain_messages (session w))).
Proof.
  intros Hms Hpar cm.
  destruct (inference_parameters_selected _ _ Hpar) as [mc Hmc].
  destruct w as [[wk mn oms omem fk] u c]. cbn in Hms. subst oms.
  unfold main_setup. run_monad.
  destruct wk as [wk|], fk as [fk|]; run_monad;
    rewrite render_sidebar_world by (cbn; eauto); rewrite Hpar;
    unfold with_session; run_monad; rewrite init_conversationchain_run;
    run_session; rewrite Hmc; run_session;
    (rewrite display_greeting; [| reflexivity]);
    eexists; (split; [reflexivity |]); split; reflexivity.
Qed.

Lemma window_nil (k : Z) : window k [] = [].
Proof. unfold window. destruct (0 <? k)%Z; reflexivity. Qed.

(** C1: on a fresh session (the message log is the single greeting, the
    memory log is empty), a run in which the text "Hello" is submitted with
    no attachment appends exactly one user message, whose content is the
    chat model's formatting of "Hello", and, the model call having
    returned, exactly one assistant message that wraps the response: the
    log goes from one message to three, of roles assistant, user,
    assistant. *)
Theorem hello_turn (inp : Inputs) (w : World) (kwargs : gmap string PyVal)
    (k : Z) (turn : LcMessage) (text : string) :
  messages (session w) = Some [INIT_MESSAGE] →
  default [] (langchain_messages (session w)) = [] →
  in_prompt inp = Some "Hello" →
  in_uploaded inp = [] →
  inference_parameters models (in_widgets inp) = Ok (kwargs, VInt k) →
  let cm := {| cm_model_name := st_selectbox (models.*1) (w_model (in_widgets inp));
               cm_model_kwargs := kwargs |} in
  HumanMessage (format_prompt cm "Hello") = Ok turn →
  run_result (llm cm [turn]) = Ok text →
  let user := {| role := "user"; content := format_prompt cm "Hello";
                 images := None |} in
  let reply := answer (format_prompt cm "Hello") [] text in
  (main' inp w).1 = Ok tt
  ∧ messages (session (main' inp w).2) = Some [INIT_MESSAGE; user; reply]
  ∧ role <$> [INIT_MESSAGE; user; reply] = ["assistant"; "user"; "assistant"]
  ∧ length [INIT_MESSAGE] = 1%nat
  ∧ length [INIT_MESSAGE; user; reply] = 3%nat
  ∧ py_item "response" (content reply) = Ok (VStr text).
Proof.
  intros Hms Hmem Hprompt Hfiles Hpar cm Hturn Hrun user reply.
  destruct (main_setup_greeting inp w kwargs k Hms Hpar) as (w1 & H1 & Hms1 & Hmem1).
  fold cm in H1. rewrite Hmem in Hmem1.
  set (w2 := {| session := set_messages (Some ([INIT_MESSAGE] ++ [user])) (session w1);
                ui := (ui w1 ++ [UiChatMessage "user"]) ++ [UiMarkdown (VStr "Hello")];
                llm_calls := llm_calls w1 |}).
  assert (H2 : stage_prompt' cm (in_uploaded inp) (in_prompt inp) w1
               = (Ok (Some (format_prompt cm "Hello")), w2)).
  { rewrite Hfiles, Hprompt. unfold stage_prompt. run_monad. rewrite Hms1.
    cbn. run_monad. rewrite Hms1. reflexivity. }
  assert (H3 : normalize_memory w2
               = (Ok tt, with_session (set_langchain_messages (Some [])) w2)).
  { unfold normalize_memory. run_monad. subst w2. cbn. rewrite Hmem1.
    reflexivity. }
  rewrite (main_steps inp w w1 w2 _ cm _ _ H1 H2 H3).
  rewrite (respond_run _ (format_prompt cm "Hello")
             (with_session (set_langchain_messages (Some [])) w2)
             [INIT_MESSAGE; user] user [] turn
             eq_refl eq_refl eq_refl eq_refl Hturn).
  cbn [chain_llm chain_k]. rewrite window_nil. cbn [app]. rewrite Hrun.
  repeat split; reflexivity.
Qed.

(** *** Attachment tracker *)

(** When every unconsumed file decodes and is re-encoded,
    [display_uploaded_images] returns one block per unconsumed file, in
    upload order, each holding the base64 text of the re-encoded image; it
    extends the caller's list with their identifiers, in the same order, and
    lays the thumbnails out ten to a row. *)
Lemma display_uploaded_images_loop_run (files : list UploadedFile)
    (consumed : list string) (i : nat) (blocks : list PyVal) (ids : list string)
    (w : World) (datas : list (list Byte.byte)) :
  mapM (reencoded Image_open Image_save) (unconsumed consumed files) = Some datas →
  display_uploaded_images_loop Image_open Image_save files consumed i blocks ids w
  = (Ok (blocks ++ (encoded_block <$> datas),
         ids ++ (file_id <$> unconsumed consumed files)),
     with_ui (thumbnails i (unconsumed consumed files)) w).
Proof.
  revert i blocks ids w datas.
  induction files as [|f files IH]; intros i blocks ids w datas Hall.
  - cbv in Hall. injection Hall as <-. cbn. rewrite !app_nil_r.
    destruct w. unfold with_ui. cbn. rewrite app_nil_r. reflexivity.
  - cbn [display_uploaded_images_loop]. unfold unconsumed in *.
    rewrite filter_cons in *. case_bool_decide as Hin.
    + rewrite decide_False in * by (intros Hn; exact (Hn Hin)).
      apply IH. exact Hall.
    + rewrite decide_True in * by exact Hin.
      cbn in Hall.
      destruct (reencoded Image_open Image_save f) as [data|] eqn:Hdata;
        [| discriminate].
      unfold reencoded in Hdata.
      destruct (Image_open f) as [img|] eqn:Himg; [| discriminate].
      cbn in Hdata, Hall.
      destruct (mapM (reencoded Image_open Image_save)
                  (filter (λ f, file_id f ∉ consumed) files))
        as [datas'|] eqn:Hrest; [| discriminate].
      injection Hall as <-.
      unfold open_image, save_image. rewrite Himg. run_monad.
      rewrite Hdata. run_monad.
      rewrite (IH _ _ _ _ datas' eq_refl).
      unfold with_ui, encoded_block. cbn [session ui llm_calls thumbnails].
      rewrite !fmap_cons, <- !app_assoc. reflexivity.
Qed.

Lemma display_uploaded_images_run (files : list UploadedFile)
    (consumed : list string) (ids : list string) (w : World)
    (datas : list (list Byte.byte)) :
  mapM (reencoded Image_open Image_save) (unconsumed consumed files) = Some datas →
  display_uploaded_images Image_open Image_save files consumed ids w
  = (Ok (encoded_block <$> datas,
         ids ++ (file_id <$> unconsumed consumed files)),
     with_ui (thumbnails 0 (unconsumed consumed files)) w).
Proof.
  intros H. unfold display_uploaded_images.
  rewrite (display_uploaded_images_loop_run _ _ _ _ _ _ datas H). reflexivity.
Qed.

End Turns.

(** ** The statements on the sample deployment *)

Lemma sample_parameters :
  inference_parameters sample_models untouched = Ok (sample_kwargs, VInt 10).
Proof. vm_compute. reflexivity. Defined.

Lemma hello_turn_witness :
  let r := main sample_models sample_format_prompt sample_llm sample_open sample_save
             hello_inputs fresh_world in
  inference_parameters sample_models (in_widgets hello_inputs)
    = Ok (sample_kwargs, VInt 10)
  ∧ r.1 = Ok tt
  ∧ messages (session r.2)
    = Some [INIT_MESSAGE;
            {| role := "user"; content := hello_prompt; images := None |};
            answer hello_prompt [] "Hi there"].
Proof.
  intros r. split; [exact sample_parameters |].
  destruct (hello_turn sample_models sample_format_prompt sample_llm sample_open
              sample_save hello_inputs fresh_world sample_kwargs 10
              hello_turn_message "Hi there"
              eq_refl eq_refl eq_refl eq_refl sample_parameters eq_refl eq_refl)
    as (H1 & H2 & _).
  split; [exact H1 | exact H2].
Defined.

Lemma empty_prompt_drives_no_turn_witness :
  let r := main sample_models sample_format_prompt sample_llm sample_open sample_save
             upload_only_inputs fresh_world in
  submitted (in_prompt upload_only_inputs) = None
  ∧ in_uploaded upload_only_inputs = [png_upload]
  ∧ llm_calls r.2 = []
  ∧ messages (session r.2) = Some [INIT_MESSAGE].
Proof.
  intros r.
  destruct (empty_prompt_drives_no_turn sample_models sample_format_prompt sample_llm
              sample_open sample_save upload_only_inputs fresh_world eq_refl)
    as (H1 & H2 & _).
  split; [reflexivity |]. split; [reflexivity |].
  split; [exact H1 | exact (H2 _ eq_refl)].
Defined.

(** C7, as the claim states it, fails: the backend streams "Hi" and then
    fails; the buffer was drawn on the page, but the run ends with the
    exception and the message log ends with the user's message: no assistant
    message holds the partial text. *)
Lemma failed_call_loses_the_turn :
  let r := main sample_models sample_format_prompt failing_llm sample_open sample_save
             hello_inputs fresh_world in
  run_tokens (failing_llm sample_chat_model [hello_turn_message]) = ["Hi"]
  ∧ UiStream "Hi" ∈ ui r.2
  ∧ r.1 = Raise (BackendError "throttled")
  ∧ messages (session r.2)
    = Some [INIT_MESSAGE;
            {| role := "user"; content := hello_prompt; images := None |}]
  ∧ ¬ (∃ m, (messages (session r.2) ≫= last) = Some m ∧ role m = "assistant").
Proof.
  intros r. split; [reflexivity |]. split.
  - vm_compute. do 5 apply list_elem_of_further. apply list_elem_of_here.
  - split; [vm_compute; reflexivity |]. split; [vm_compute; reflexivity |].
    intros (m & Hm & Hr). vm_compute in Hm. injection Hm as <-.
    discriminate Hr.
Qed.

Lemma sample_setup :
  main_setup sample_models sample_open hello_inputs fresh_world
  = (Ok (sample_chat_model, sample_chain),
     (main_setup sample_models sample_open hello_inputs fresh_world).2).
Proof. vm_compute. reflexivity. Defined.

Lemma sample_stage :
  stage_prompt sample_format_prompt sample_open sample_save sample_chat_model
    (in_uploaded hello_inputs) (in_prompt hello_inputs)
    (main_setup sample_models sample_open hello_inputs fresh_world).2
  = (Ok (Some hello_prompt),
     (stage_prompt sample_format_prompt sample_open sample_save sample_chat_model
        (in_uploaded hello_inputs) (in_prompt hello_inputs)
        (main_setup sample_models sample_open hello_inputs fresh_world).2).2).
Proof. vm_compute. reflexivity. Defined.

Lemma sample_normalize :
  normalize_memory
    (stage_prompt sample_format_prompt sample_open sample_save sample_chat_model
       (in_uploaded hello_inputs) (in_prompt hello_inputs)
       (main_setup sample_models sample_open hello_inputs fresh_world).2).2
  = (Ok tt,
     (normalize_memory
        (stage_prompt sample_format_prompt sample_open sample_save sample_chat_model
           (in_uploaded hello_inputs) (in_prompt hello_inputs)
           (main_setup sample_models sample_open hello_inputs fresh_world).2).2).2).
Proof. vm_compute. reflexivity. Defined.

Lemma failed_call_appends_nothing_witness :
  let r := main sample_models sample_format_prompt failing_llm sample_open sample_save
             hello_inputs fresh_world in
  HumanMessage hello_prompt = Ok hello_turn_message
  ∧ length (llm_calls r.2) = 1%nat
  ∧ r.1 = Raise (BackendError "throttled")
  ∧ ∃ ms user, messages (session r.2) = Some (ms ++ [user])
      ∧ role user = "user" ∧ content user = hello_prompt.
Proof.
  intros r.
  destruct (failed_call_appends_nothing sample_models sample_format_prompt failing_llm
              sample_open sample_save hello_inputs fresh_world _ _ _
              sample_chat_model sample_chain hello_prompt hello_turn_message
              sample_setup sample_stage sample_normalize eq_refl)
    as (ms & user & mem & Hms & Hrole & Hcontent & Hmem & Hcalls & _ & Hfail).
  destruct (Hfail (BackendError "throttled") eq_refl) as (Hr & Hmsgs & _).
  split; [reflexivity |]. split.
  - subst r. rewrite Hcalls. reflexivity.
  - split; [exact Hr |]. exists ms, user. split; [exact Hmsgs |].
    split; [exact Hrole | exact Hcontent].
Defined.

Lemma model_sees_window_and_turn_witness :
  let r := main sample_models sample_format_prompt sample_llm sample_open sample_save
             why_inputs two_turn_world in
  (fst ∘ langchain_messages_format <$> langchain_messages (session two_turn_world))
    = Some [human_text "Hello"; ai_text "Hi there";
            human_text "And then?"; ai_text "Hi there"]
  ∧ inference_parameters sample_models typed_widgets = Ok (typed_kwargs, VInt 1)
  ∧ typed_kwargs !! "temperature" = Some (VFloat 0.25%float)
  ∧ typed_kwargs !! "system" = Some (VStr "Answer briefly.")
  ∧ llm_calls r.2
    = llm_calls two_turn_world
      ++ [{| call_model := typed_chat_model;
             call_context := [human_text "And then?"; ai_text "Hi there";
                              human_text "Why?"] |}]
  ∧ ∃ shown,
      ui r.2 = shown ++ [UiChatMessage "assistant"; UiStream "Hi"; UiStream "Hi there"].
Proof.
  intros r.
  set (w1 := (main_setup sample_models sample_open why_inputs two_turn_world).2).
  set (w2 := (stage_prompt sample_format_prompt sample_open sample_save
                typed_chat_model (in_uploaded why_inputs) (in_prompt why_inputs)
                w1).2).
  set (w3 := (normalize_memory w2).2).
  assert (Hpars : inference_parameters sample_models typed_widgets
                  = Ok (typed_kwargs, VInt 1)) by (vm_compute; reflexivity).
  assert (H1 : main_setup sample_models sample_open why_inputs two_turn_world
               = (Ok (typed_chat_model, typed_chain), w1))
    by (vm_compute; reflexivity).
  assert (H2 : stage_prompt sample_format_prompt sample_open sample_save
                 typed_chat_model (in_uploaded why_inputs) (in_prompt why_inputs) w1
               = (Ok (Some (lc_content (human_text "Why?"))), w2))
    by (vm_compute; reflexivity).
  assert (Hnew : messages (session w2) ≠ messages (session w1)).
  { intros H. vm_compute in H. discriminate H. }
  assert (H3 : normalize_memory w2 = (Ok tt, w3)) by (vm_compute; reflexivity).
  destruct (model_sees_window_and_turn sample_models sample_format_prompt sample_llm
              sample_open sample_save why_inputs two_turn_world w1 w2 w3
              typed_chat_model typed_chain _ H1 H2 Hnew H3)
    as (fpv & ms & imgs & mem & kwargs & k & Hfp & _ & _ & Hmem & Hpar & _ & Hcall).
  injection Hfp as <-.
  assert (Hk : k = 1%Z).
  { cbn [in_widgets why_inputs] in Hpar. rewrite Hpars in Hpar.
    injection Hpar as _ Hk. symmetry. exact Hk. }
  assert (Hm : mem = [human_text "Hello"; ai_text "Hi there";
                      human_text "And then?"; ai_text "Hi there"]).
  { vm_compute in Hmem. injection Hmem as Hm. symmetry. exact Hm. }
  subst k mem.
  destruct (Hcall (human_text "Why?") eq_refl) as (_ & _ & Hcalls & Hui & _).
  split; [vm_compute; reflexivity |]. split; [exact Hpars |].
  split; [vm_compute; reflexivity |]. split; [vm_compute; reflexivity |].
  split.
  - subst r. rewrite Hcalls. reflexivity.
  - exists (ui w3). subst r. rewrite Hui. reflexivity.
Defined.

Lemma unassigned_prompt_fails_witness :
  let r := main sample_models sample_format_prompt sample_llm sample_open sample_save
             upload_only_inputs stalled_world in
  let user := {| role := "user"; content := hello_prompt; images := None |} in
  submitted (in_prompt upload_only_inputs) = None
  ∧ messages (session stalled_world) = Some [INIT_MESSAGE; user]
  ∧ r.1 = Raise (UnboundLocalError "formatted_prompt")
  ∧ messages (session r.2) = Some [INIT_MESSAGE; user]
  ∧ llm_calls r.2 = llm_calls stalled_world.
Proof.
  intros r user.
  assert (Hms : messages (session stalled_world) = Some [INIT_MESSAGE; user])
    by (vm_compute; reflexivity).
  destruct (unassigned_prompt_fails sample_models sample_format_prompt sample_llm
              sample_open sample_save upload_only_inputs stalled_world
              [INIT_MESSAGE; user] user eq_refl Hms eq_refl eq_refl)
    as (_ & Hmsgs & Hcalls & Hreached).
  set (w1 := (main_setup sample_models sample_open upload_only_inputs
                stalled_world).2).
  set (w2 := (stage_prompt sample_format_prompt sample_open sample_save
                sample_chat_model (in_uploaded upload_only_inputs)
                (in_prompt upload_only_inputs) w1).2).
  set (w3 := (normalize_memory w2).2).
  assert (H1 : main_setup sample_models sample_open upload_only_inputs stalled_world
               = (Ok (sample_chat_model, sample_chain), w1))
    by (vm_compute; reflexivity).
  assert (H2 : stage_prompt sample_format_prompt sample_open sample_save
                 sample_chat_model (in_uploaded upload_only_inputs)
                 (in_prompt upload_only_inputs) w1 = (Ok None, w2))
    by (vm_compute; reflexivity).
  assert (H3 : normalize_memory w2 = (Ok tt, w3)) by (vm_compute; reflexivity).
  destruct (Hreached sample_chat_model sample_chain w1 None w2 w3 H1 H2 H3)
    as [_ Hmain].
  split; [reflexivity |]. split; [exact Hms |].
  split; [subst r; rewrite Hmain; reflexivity |].
  split; [exact Hmsgs | exact Hcalls].
Defined.

(** ** The attachment tracker on a PNG upload *)

(** C2 at a failing input: the upload widget holds one PNG file that no
    message carries yet.  The tracker returns one block for it and records
    its identifier, but the block is tagged [image/jpeg], although the file's
    media type is [image/png] and the image was re-encoded as PNG. *)
Theorem png_upload_tagged_jpeg :
  let r := display_uploaded_images sample_open sample_save [png_upload] [] []
             initial_world in
  file_type png_upload = "image/png"
  ∧ (img_format <$> sample_open png_upload) = Some "PNG"
  ∧ ∃ block,
      r.1 = Ok ([block], ["f1"])
      ∧ py_item "source" block
        = Ok (VDict [("type", VStr "base64");
                     ("media_type", VStr "image/jpeg");
                     ("data", VStr "iVBORw==")])
      ∧ block_media_type block = Ok (VStr "image/jpeg")
      ∧ block_media_type block ≠ Ok (VStr (file_type png_upload)).
Proof.
  intros r. split; [reflexivity |]. split; [reflexivity |].
  eexists. split; [vm_compute; reflexivity |].
  split; [reflexivity |]. split; [reflexivity |].
  vm_compute. discriminate.
Qed.

(** A second turn on the sample deployment: the model is shown the first
    exchange, normalized, followed by the new turn. *)
Example second_turn_context :
  let w1 := (main sample_models sample_format_prompt sample_llm sample_open
               sample_save hello_inputs fresh_world).2 in
  let again := {| in_random := 424242; in_widgets := untouched; in_uploaded := [];
                  in_prompt := Some "And then?" |} in
  let r := main sample_models sample_format_prompt sample_llm sample_open sample_save
             again w1 in
  r.1 = Ok tt
  ∧ (call_context <$> last (llm_calls r.2))
    = Some [hello_turn_message;
            {| lc_type := "ai"; lc_content := VStr "Hi there" |};
            {| lc_type := "human";
               lc_content := VList [VDict [("type", VStr "text");
                                           ("text", VStr "And then?")]] |}].
Proof. vm_compute. split; reflexivity. Qed.

(** * More of the script *)

(** ** Attachment tracker *)

Lemma next_col_mod (i : nat) : (i < 10)%nat → next_col i = ((i + 1) mod 10)%nat.
Proof.
  intros Hi. unfold next_col.
  destruct (Nat.leb_spec 10 (S i)) as [Hle | Hlt].
  - assert (i = 9%nat) as -> by lia. reflexivity.
  - rewrite Nat.mod_small by lia. lia.
Qed.

Lemma next_col_bound (i : nat) : (next_col i < 10)%nat.
Proof.
  unfold next_col. destruct (Nat.leb_spec 10 (S i)); lia.
Qed.

Lemma thumbnails_lookup (files : list UploadedFile) (i j : nat) (f : UploadedFile) :
  (i < 10)%nat →
  files !! j = Some f →
  thumbnails i files !! j = Some (UiImage (file_id f) ((i + j) mod 10)%nat).
Proof.
  revert i j. induction files as [|g files IH]; intros i j Hi Hj; [discriminate |].
  destruct j as [|j]; cbn -[Nat.modulo Nat.add] in *.
  - injection Hj as ->. rewrite Nat.add_0_r, Nat.mod_small by lia. reflexivity.
  - etransitivity; [exact (IH (next_col i) j (next_col_bound i) Hj) |].
    rewrite (next_col_mod i Hi). do 2 f_equal.
    rewrite Nat.Div0.add_mod_idemp_l. f_equal. lia.
Qed.

Lemma thumbnails_length (files : list UploadedFile) (i : nat) :
  length (thumbnails i files) = length files.
Proof.
  revert i. induction files as [|g files IH]; intros i; cbn; [done |].
  by rewrite IH.
Qed.

Lemma col_after_next (i n : nat) : col_after (next_col i) n = col_after i (S n).
Proof. unfold col_after. symmetry. apply Nat.iter_succ_r. Qed.


Section Coverage.
Variable models : Models.
Variable format_prompt : ChatModel → string → PyVal.
Variable llm : ChatModel → list LcMessage → LlmRun.
Variable Image_open : UploadedFile → option Image.
Variable Image_save : Image → option (list Byte.byte).

Local Abbreviation tracker_loop :=
  (display_uploaded_images_loop Image_open Image_save).
Local Abbreviation tracker := (display_uploaded_images Image_open Image_save).
Local Abbreviation stage := (stage_prompt format_prompt Image_open Image_save).
Local Abbreviation run_main := (main models format_prompt llm Image_open Image_save).

(** X1: when every unconsumed upload decodes and is re-encoded without
    error, the tracker returns one block per unconsumed upload, in upload
    order, each holding the base64 text of the re-encoded image; it appends
    their identifiers, in the same order, to the caller's list; and it draws
    one thumbnail per unconsumed upload and nothing else. *)
Theorem tracker_returns_unconsumed_in_order (files : list UploadedFile)
    (consumed ids : list string) (w : World) (datas : list (list Byte.byte)) :
  mapM (reencoded Image_open Image_save) (unconsumed consumed files) = Some datas →
  tracker files consumed ids w
  = (Ok (encoded_block <$> datas,
         ids ++ (file_id <$> unconsumed consumed files)),
     with_ui (thumbnails 0 (unconsumed consumed files)) w)
  ∧ length datas = length (unconsumed consumed files)
  ∧ (∀ f, f ∈ unconsumed consumed files ↔ f ∈ files ∧ file_id f ∉ consumed).
Proof.
  intros H. split; [exact (display_uploaded_images_run _ _ _ _ _ _ _ H) |].
  split.
  - apply length_mapM in H. symmetry. exact H.
  - intros f. unfold unconsumed. rewrite list_elem_of_filter. tauto.
Qed.

(** X2: when every unconsumed upload decodes and is re-encoded without
    error, the thumbnails of the tracker form a grid of ten columns: the
    thumbnail of the [j]-th unconsumed upload goes to column [j mod 10], so
    no column index ever reaches the number of columns. *)
Theorem tracker_grid_wraps_at_ten (files : list UploadedFile)
    (consumed ids : list string) (w : World) (datas : list (list Byte.byte))
    (j : nat) (f : UploadedFile) :
  mapM (reencoded Image_open Image_save) (unconsumed consumed files) = Some datas →
  unconsumed consumed files !! j = Some f →
  ui (tracker files consumed ids w).2 !! (length (ui w) + j)%nat
  = Some (UiImage (file_id f) (j mod 10)%nat)
  ∧ (j mod 10 < 10)%nat.
Proof.
  intros H Hj. split; [| apply Nat.mod_upper_bound; lia].
  rewrite (display_uploaded_images_run _ _ _ _ _ _ _ H).
  unfold with_ui. cbn [snd ui].
  rewrite lookup_app_r by lia.
  replace (length (ui w) + j - length (ui w))%nat with j by lia.
  exact (thumbnails_lookup _ 0 j f ltac:(lia) Hj).
Qed.

Lemma tracker_loop_app (pre rest : list UploadedFile) (consumed : list string)
    (i : nat) (blocks : list PyVal) (ids : list string) (w : World)
    (datas : list (list Byte.byte)) :
  mapM (reencoded Image_open Image_save) (unconsumed consumed pre) = Some datas →
  tracker_loop (pre ++ rest) consumed i blocks ids w
  = tracker_loop rest consumed
      (col_after i (length (unconsumed consumed pre)))
      (blocks ++ (encoded_block <$> datas))
      (ids ++ (file_id <$> unconsumed consumed pre))
      (with_ui (thumbnails i (unconsumed consumed pre)) w).
Proof.
  revert i blocks ids w datas.
  induction pre as [|f pre IH]; intros i blocks ids w datas Hall.
  - cbv in Hall. injection Hall as <-. cbn. rewrite !app_nil_r.
    destruct w. unfold with_ui. cbn. rewrite app_nil_r. reflexivity.
  - cbn [app display_uploaded_images_loop]. unfold unconsumed in *.
    rewrite filter_cons in *. case_bool_decide as Hin.
    + rewrite decide_False in * by (intros Hn; exact (Hn Hin)).
      apply IH. exact Hall.
    + rewrite decide_True in * by exact Hin.
      cbn in Hall.
      destruct (reencoded Image_open Image_save f) as [data|] eqn:Hdata;
        [| discriminate].
      unfold reencoded in Hdata.
      destruct (Image_open f) as [img|] eqn:Himg; [| discriminate].
      cbn in Hdata, Hall.
      destruct (mapM (reencoded Image_open Image_save)
                  (filter (λ f, file_id f ∉ consumed) pre))
        as [datas'|] eqn:Hrest; [| discriminate].
      injection Hall as <-.
      unfold open_image, save_image. rewrite Himg. run_monad.
      rewrite Hdata. run_monad.
      rewrite (IH _ _ _ _ datas' eq_refl).
      unfold with_ui, encoded_block. cbn [session ui llm_calls thumbnails length].
      rewrite !fmap_cons, <- !app_assoc. cbn [app].
      rewrite col_after_next. reflexivity.
Qed.

(** X3: an unconsumed upload that does not decode, or that decodes but cannot
    be re-encoded, ends the tracker at that upload, with the decoder's
    exception in the first case and the encoder's in the second: the uploads
    before it have been drawn, its own thumbnail has not, no block is
    returned, and the session is as it was. *)
Theorem tracker_raises_at_undecodable (pre post : list UploadedFile)
    (f : UploadedFile) (consumed ids : list string) (w : World)
    (datas : list (list Byte.byte)) :
  mapM (reencoded Image_open Image_save) (unconsumed consumed pre) = Some datas →
  file_id f ∉ consumed →
  reencoded Image_open Image_save f = None →
  tracker (pre ++ f :: post) consumed ids w
  = (Raise (match Image_open f with
            | None => UnidentifiedImageError (file_id f)
            | Some _ => OSError (file_id f)
            end),
     with_ui (thumbnails 0 (unconsumed consumed pre)) w).
Proof.
  intros Hpre Hf Hfail. unfold display_uploaded_images.
  rewrite (tracker_loop_app pre (f :: post) consumed 0 [] ids w datas Hpre).
  cbn [display_uploaded_images_loop].
  rewrite bool_decide_eq_false_2 by exact Hf.
  unfold reencoded in Hfail. unfold open_image, save_image.
  destruct (Image_open f) as [img|]; [| reflexivity].
  cbn in Hfail. run_monad. rewrite Hfail. reflexivity.
Qed.

Lemma consumed_ids_app (a b : list Message) :
  consumed_ids (a ++ b) = consumed_ids a ++ consumed_ids b.
Proof. unfold consumed_ids. apply bind_app. Qed.

(** X6: an attachment is consumed once.  After a user message has been
    appended that carries the identifiers of the unconsumed uploads, none of
    these uploads is unconsumed any more. *)
Theorem attachments_consumed_once (ms : list Message) (files : list UploadedFile)
    (c : PyVal) :
  let ids := file_id <$> unconsumed (consumed_ids ms) files in
  let ms' := ms ++ [{| role := "user"; content := c; images := Some ids |}] in
  unconsumed (consumed_ids ms') files = []
  ∧ (∀ id, id ∈ consumed_ids ms → id ∈ consumed_ids ms').
Proof.
  intros ids ms'. subst ms'. rewrite consumed_ids_app.
  assert (Hnew : consumed_ids [{| role := "user"; content := c; images := Some ids |}]
                 = ids).
  { unfold consumed_ids. cbn. rewrite app_nil_r. destruct ids; reflexivity. }
  rewrite Hnew. split.
  - apply elem_of_nil_inv. intros f Hf.
    unfold unconsumed in Hf. apply list_elem_of_filter in Hf as [Hid Hin].
    apply Hid. apply elem_of_app.
    destruct (decide (file_id f ∈ consumed_ids ms)) as [Hc | Hc]; [left; exact Hc |].
    right. subst ids. apply list_elem_of_fmap. exists f. split; [reflexivity |].
    unfold unconsumed. apply list_elem_of_filter. split; assumption.
  - intros id Hid. apply elem_of_app. left. exact Hid.
Qed.

(** ** Prompt staging *)

Lemma upload_gate_open (files : list UploadedFile) (consumed : list string) :
  (length consumed < length files)%nat →
  bool_decide (files ≠ []) && (length consumed <? length files)%nat = true.
Proof.
  intros H. apply andb_true_intro. split.
  - apply bool_decide_eq_true_2. intros ->. cbn in H. lia.
  - apply Nat.ltb_lt. exact H.
Qed.

Lemma upload_gate_closed (files : list UploadedFile) (consumed : list string) :
  (length files ≤ length consumed)%nat →
  bool_decide (files ≠ []) && (length consumed <? length files)%nat = false.
Proof.
  intros H. apply andb_false_intro2. apply Nat.ltb_ge. exact H.
Qed.

(** X4: a prompt submitted while the upload widget holds more files than
    there are consumed identifiers, all the unconsumed ones decoding and
    being re-encoded without error, is appended as one user message: its
    content is the formatted prompt followed by the image blocks, in upload
    order, and its [images] are the identifiers of the uploads consumed by
    it. *)
Theorem staged_message_carries_uploads (cm : ChatModel) (files : list UploadedFile)
    (prompt : option string) (p : string) (w : World) (ms : list Message)
    (datas : list (list Byte.byte)) (blocks : list PyVal) :
  messages (session w) = Some ms →
  (length (consumed_ids ms) < length files)%nat →
  mapM (reencoded Image_open Image_save) (unconsumed (consumed_ids ms) files)
    = Some datas →
  submitted prompt = Some p →
  format_prompt cm p = VList blocks →
  let staged := VList (blocks ++ (encoded_block <$> datas)) in
  let ids := file_id <$> unconsumed (consumed_ids ms) files in
  stage cm files prompt w
  = (Ok (Some staged),
     {| session :=
          set_messages
            (Some (ms ++ [{| role := "user"; content := staged; images := Some ids |}]))
            (session w);
        ui := ui w ++ UiChatMessage "user"
                :: thumbnails 0 (unconsumed (consumed_ids ms) files)
                ++ [UiMarkdown (VStr p)];
        llm_calls := llm_calls w |}).
Proof.
  intros Hms Hgate Himgs Hp Hfmt staged ids.
  unfold stage_prompt. run_monad. rewrite Hms.
  rewrite (upload_gate_open _ _ Hgate). run_monad.
  rewrite (display_uploaded_images_run _ _ _ _ _ _ datas Himgs).
  rewrite Hp, Hfmt. unfold with_ui. run_monad.
  assert (Hblocks : append_blocks (VList blocks) (encoded_block <$> datas)
                    = Ok staged).
  { unfold append_blocks, staged.
    destruct (encoded_block <$> datas); [rewrite app_nil_r |]; reflexivity. }
  rewrite Hblocks. run_monad. rewrite Hms. run_monad.
  rewrite <- !app_assoc. reflexivity.
Qed.

(** The text-only branch of [stage_prompt]. *)
Lemma stage_prompt_text_only (cm : ChatModel) (files : list UploadedFile)
    (prompt : option string) (p : string) (w : World) (ms : list Message) :
  messages (session w) = Some ms →
  (length files ≤ length (consumed_ids ms))%nat →
  submitted prompt = Some p →
  stage cm files prompt w
  = (Ok (Some (format_prompt cm p)),
     {| session :=
          set_messages
            (Some (ms ++ [{| role := "user"; content := format_prompt cm p;
                             images := None |}]))
            (session w);
        ui := ui w ++ [UiChatMessage "user"; UiMarkdown (VStr p)];
        llm_calls := llm_calls w |}).
Proof.
  intros Hms Hgate Hp.
  unfold stage_prompt. run_monad. rewrite Hms.
  rewrite (upload_gate_closed _ _ Hgate), Hp. run_monad. rewrite Hms. run_monad.
  rewrite <- !app_assoc. reflexivity.
Qed.

(** X5: when the upload widget holds no more files than there are consumed
    identifiers, a submitted prompt is appended as a text-only user message,
    whatever the widget holds: no upload is decoded, drawn or attached, and
    the message has no [images] entry. *)
Theorem staged_message_without_uploads (cm : ChatModel) (files : list UploadedFile)
    (prompt : option string) (p : string) (w : World) (ms : list Message) :
  messages (session w) = Some ms →
  (length files ≤ length (consumed_ids ms))%nat →
  submitted prompt = Some p →
  stage cm files prompt w
  = (Ok (Some (format_prompt cm p)),
     {| session :=
          set_messages
            (Some (ms ++ [{| role := "user"; content := format_prompt cm p;
                             images := None |}]))
            (session w);
        ui := ui w ++ [UiChatMessage "user"; UiMarkdown (VStr p)];
        llm_calls := llm_calls w |}).
Proof. apply stage_prompt_text_only. Qed.

(** X7: when the chat model formats the prompt as something that is not a
    list, a prompt submitted with an unconsumed upload, the unconsumed
    uploads decoding and being re-encoded without error, cannot take the
    image block: the run raises the attribute error of [append], and no
    message is appended. *)
Theorem staged_text_cannot_take_blocks (cm : ChatModel) (files : list UploadedFile)
    (prompt : option string) (p : string) (w : World) (ms : list Message)
    (data : list Byte.byte) (datas : list (list Byte.byte)) :
  messages (session w) = Some ms →
  (length (consumed_ids ms) < length files)%nat →
  mapM (reencoded Image_open Image_save) (unconsumed (consumed_ids ms) files)
    = Some (data :: datas) →
  submitted prompt = Some p →
  (∀ blocks, format_prompt cm p ≠ VList blocks) →
  (stage cm files prompt w).1 = Raise (AttributeError "append")
  ∧ session (stage cm files prompt w).2 = session w
  ∧ llm_calls (stage cm files prompt w).2 = llm_calls w.
Proof.
  intros Hms Hgate Himgs Hp Hfmt.
  unfold stage_prompt. run_monad. rewrite Hms.
  rewrite (upload_gate_open _ _ Hgate). run_monad.
  rewrite (display_uploaded_images_run _ _ _ _ _ _ _ Himgs).
  rewrite Hp. unfold with_ui. run_monad.
  assert (Hblocks : append_blocks (format_prompt cm p)
                      (encoded_block <$> (data :: datas))
                    = Raise (AttributeError "append")).
  { unfold append_blocks. cbn [fmap list_fmap].
    destruct (format_prompt cm p) eqn:Hf; try reflexivity.
    exfalso. exact (Hfmt _ eq_refl). }
  rewrite Hblocks. repeat split; reflexivity.
Qed.

(** ** The message log on the page *)




(** X13: what a turn stores is what the next run shows: the assistant
    message that wraps a response is drawn as the response text, and a user
    message whose content starts with a text block is drawn as that text;
    neither draws a thumbnail, whatever the upload widget holds. *)
Theorem stored_turn_is_shown (files : list UploadedFile) (fpv : PyVal)
    (history : list LcMessage) (text p : string) (rest : list PyVal) (w : World) :
  display_chat_message Image_open files (answer fpv history text) w
  = (Ok tt, with_ui [UiChatMessage "assistant"; UiMarkdown (VStr text)] w)
  ∧ display_chat_message Image_open files
      {| role := "user";
         content := VList (VDict [("type", VStr "text"); ("text", VStr p)] :: rest);
         images := None |} w
    = (Ok tt, with_ui [UiChatMessage "user"; UiMarkdown (VStr p)] w).
Proof.
  unfold display_chat_message, with_ui.
  split; destruct files; cbn; run_monad; rewrite <- app_assoc; reflexivity.
Qed.

(** ** The run as a whole *)

Lemma inference_parameters_run (w : Widgets) :
  inference_parameters models w
  = match selected_config models w with
    | Ok mc =>
        Ok ((if negb (system_prompt_disabled mc)
             then <["system" := live_system_prompt mc w]> else id)
              (<["max_tokens" := st_slider (config_get mc "max_tokens" (VInt 4096))
                                   (w_max_tokens w)]>
                (<["top_k" := st_slider (config_get mc "top_k" (VInt 500)) (w_top_k w)]>
                  (<["top_p" := st_slider (config_get mc "top_p" (VFloat 1%float))
                                  (w_top_p w)]>
                    (<["temperature" :=
                         st_slider (config_get mc "temperature" (VFloat 1%float))
                           (w_temperature w)]> (∅ : gmap string PyVal))))),
            st_slider (config_get mc "memory_window" (VInt 10)) (w_memory_window w))
    | Raise e => Raise e
    end.
Proof.
  unfold inference_parameters, selected_config, render_sidebar.
  set (keyed := {| session := set_widget_key (Some "") empty_session; ui := [];
                   llm_calls := [] |}).
  rewrite bind_run, (read_widget_key_run keyed "" eq_refl). cbv beta iota.
  rewrite bind_run.
  change (modify_session (set_model_name (st_selectbox models.*1 (w_model w))) keyed)
    with (Ok tt, with_session (set_model_name (st_selectbox models.*1 (w_model w)))
                   keyed).
  cbv beta iota. rewrite bind_run. unfold lift at 1.
  destruct (models_item models (st_selectbox models.*1 (w_model w))) as [mc|e];
    [| reflexivity].
  cbv beta iota zeta. fold (system_prompt_disabled mc).
  fold (live_system_prompt mc w).
  destruct (system_prompt_disabled mc); reflexivity.
Qed.

(** X15: the parameters handed to the chat model hold exactly the four
    sampling fields and, unless the model's record disables it, the system
    prompt; the memory window is returned beside them and is never one of
    the fields. *)
Theorem parameters_hold_the_sampling_fields (w : Widgets) (mc : ModelConfig)
    (kwargs : gmap string PyVal) (mw : PyVal) :
  selected_config models w = Ok mc →
  inference_parameters models w = Ok (kwargs, mw) →
  dom kwargs
  = ({[ "temperature"; "top_p"; "top_k"; "max_tokens" ]} : gset string)
    ∪ (if system_prompt_disabled mc then ∅ else {[ "system" ]})
  ∧ kwargs !! "memory_window" = None
  ∧ mw = st_slider (config_get mc "memory_window" (VInt 10)) (w_memory_window w).
Proof.
  intros Hsel Hpar. rewrite inference_parameters_run, Hsel in Hpar.
  injection Hpar as <- <-. split; [| split; [| reflexivity]].
  - destruct (system_prompt_disabled mc); cbn [negb id];
      rewrite !dom_insert_L, dom_empty_L; set_solver.
  - destruct (system_prompt_disabled mc); cbn [negb id];
      rewrite !lookup_insert_ne by discriminate; apply lookup_empty.
Qed.

(** X16: when the selected model is not in the configuration (or the
    configuration lists no model at all), the run stops at the sidebar with
    the key error: no message log is created, nothing is drawn and the model
    is not called. *)
Theorem unknown_model_stops_the_run (inp : Inputs) (w : World) (e : Exn) :
  selected_config models (in_widgets inp) = Raise e →
  (run_main inp w).1 = Raise e
  ∧ messages (session (run_main inp w).2) = messages (session w)
  ∧ langchain_messages (session (run_main inp w).2) = langchain_messages (session w)
  ∧ file_uploader_key (session (run_main inp w).2) = file_uploader_key (session w)
  ∧ ui (run_main inp w).2 = ui w
  ∧ llm_calls (run_main inp w).2 = llm_calls w.
Proof.
  intros Hsel.
  assert (Hpar : inference_parameters models (in_widgets inp) = Raise e)
    by (rewrite inference_parameters_run, Hsel; reflexivity).
  unfold main, main_setup. run_monad.
  destruct (widget_key (session w)) eqn:Hkey; run_monad;
    rewrite render_sidebar_world by (cbn; rewrite ?Hkey; eauto); rewrite Hpar;
    repeat split; reflexivity.
Qed.

(** X17: the first run of a session, with nothing submitted and nothing
    uploaded, creates every session entry: the widget key is the decimal
    text of the number drawn, the model name is the selection, the message
    log is the greeting, the memory log is empty and the upload epoch is 0;
    the run draws the greeting and returns. *)
Theorem first_run_creates_the_session (inp : Inputs) (w : World)
    (kwargs : gmap string PyVal) (k : Z) :
  session w = empty_session →
  submitted (in_prompt inp) = None →
  in_uploaded inp = [] →
  inference_parameters models (in_widgets inp) = Ok (kwargs, VInt k) →
  run_main inp w
  = (Ok tt,
     {| session :=
          {| widget_key := Some (pretty (in_random inp));
             model_name := st_selectbox (models.*1) (w_model (in_widgets inp));
             messages := Some [INIT_MESSAGE];
             langchain_messages := Some [];
             file_uploader_key := Some 0%Z |};
        ui := ui w ++ [UiChatMessage "assistant"; UiMarkdown (content INIT_MESSAGE)];
        llm_calls := llm_calls w |}).
Proof.
  intros Hs Hp Hfiles Hpar.
  destruct (inference_parameters_selected models _ _ Hpar) as [mc Hmc].
  destruct w as [s u c]. cbn in Hs. subst s.
  unfold main, main_setup. run_monad. unfold empty_session. run_session.
  rewrite render_sidebar_world by (cbn; eauto). rewrite Hpar. run_session.
  rewrite init_conversationchain_run. run_session. rewrite Hmc. run_session.
  rewrite display_greeting by reflexivity. run_session.
  unfold stage_prompt. rewrite Hfiles, Hp. run_session. cbn.
  unfold normalize_memory. run_session. cbn. run_session.
  unfold respond. run_session. cbn. run_session. reflexivity.
Qed.

(** X18: "New Chat" discards the conversation: whatever the session held, a
    click followed by a run in which no prompt is submitted leaves the
    message log equal to the greeting alone, and makes no call to the
    model. *)
Theorem new_chat_discards_the_conversation (r : Z) (inp : Inputs) (w : World) :
  submitted (in_prompt inp) = None →
  let w' := (click_new_chat models format_prompt llm Image_open Image_save r inp w).2 in
  messages (session w') = Some [INIT_MESSAGE]
  ∧ llm_calls w' = llm_calls w.
Proof.
  intros Hp w'. subst w'. unfold click_new_chat.
  rewrite (bind_ok _ _ _ _ _ (new_chat_run r w)).
  destruct (main_without_prompt models format_prompt llm Image_open Image_save
              inp Hp (new_chat r w).2) as [Hms Hcalls].
  rewrite new_chat_run in Hms, Hcalls. cbn in Hms, Hcalls.
  split; [| exact Hcalls].
  destruct Hms as [Hms | [Hnone _]]; [exact Hms | discriminate].
Qed.

(** *** What one run can add *)

Lemma tracker_outcome (files : list UploadedFile) (consumed ids : list string)
    (w : World) :
  only_ui w (tracker files consumed ids w).2.
Proof. apply display_uploaded_images_frame. Qed.

(** Every outcome of [stage_prompt]: either it assigned [formatted_prompt]
    and appended one user message, or it left the session as it was. *)
Lemma stage_prompt_outcome (cm : ChatModel) (files : list UploadedFile)
    (prompt : option string) (w : World) (ms : list Message) :
  messages (session w) = Some ms →
  let r := stage cm files prompt w in
  llm_calls r.2 = llm_calls w
  ∧ ((∃ fpv m, r.1 = Ok (Some fpv) ∧ role m = "user"
        ∧ messages (session r.2) = Some (ms ++ [m]))
     ∨ ((∀ fpv, r.1 ≠ Ok (Some fpv)) ∧ session r.2 = session w)).
Proof.
  intros Hms r. subst r.
  destruct (stage cm files prompt w) as [[[fpv|]|e] w'] eqn:H; cbn [fst snd].
  - apply stage_prompt_assigned in H as (ms' & imgs & Hms' & Hs & Hc).
    split; [exact Hc |]. left. exists fpv, {| role := "user"; content := fpv; images := imgs |}.
    rewrite Hs. cbn. split; [done |]. split; [done |]. congruence.
  - apply stage_prompt_unassigned_session in H as [Hs Hc].
    split; [exact Hc |]. right. split; [discriminate | exact Hs].
  - assert (only_ui w w') as [Hs Hc]; [| split; [exact Hc |]; right;
                                         split; [discriminate | exact Hs]].
    revert H. unfold stage_prompt. run_monad. rewrite Hms.
    destruct (bool_decide (files ≠ []) && _).
    + run_monad.
      pose proof (tracker_outcome files (consumed_ids ms) []
                    {| session := session w; ui := ui w ++ [UiChatMessage "user"];
                       llm_calls := llm_calls w |}) as [Hs1 Hc1].
      destruct (display_uploaded_images Image_open Image_save files _ _ _)
        as [[[blocks ids]|e1] w1]; cbn in Hs1, Hc1.
      2:{ intros H. injection H as _ <-. split; assumption. }
      destruct (submitted prompt) as [p|]; [| discriminate].
      destruct (append_blocks (format_prompt cm p) blocks) as [fp|e2]; run_monad.
      * rewrite Hs1, Hms. discriminate.
      * intros H. injection H as _ <-. split; assumption.
    + destruct (submitted prompt) as [p|]; run_monad; [rewrite Hms |]; discriminate.
Qed.

(** Every outcome of the chain's [invoke]: the message log is not touched,
    and the model is called at most once, exactly once when it returns. *)
Lemma invoke_outcome (chain : ConversationChain) (input : PyVal)
    (h : StreamHandler) (w : World) :
  let r := ConversationChain_invoke llm chain input h w in
  messages (session r.2) = messages (session w)
  ∧ (llm_calls r.2 = llm_calls w ∨ ∃ c, llm_calls r.2 = llm_calls w ++ [c])
  ∧ (∀ v, r.1 = Ok v → ∃ c, llm_calls r.2 = llm_calls w ++ [c]).
Proof.
  intros r. subst r. unfold ConversationChain_invoke, CLAUDE_PROMPT. run_monad.
  destruct (langchain_messages (session w)) as [mem|] eqn:Hmem;
    [| cbn; split; [done |]; split; [left; done | discriminate]].
  run_monad.
  destruct (match input with VList vs => placeholder_messages vs | _ => Raise ValidationError end)
    as [turn|e]; [| cbn; split; [done |]; split; [left; done | discriminate]].
  match goal with
  | |- context [stream_tokens ?h0 ?ts ?w0] =>
      destruct (stream_tokens_run h0 ts w0) as [h' ->]
  end.
  unfold with_ui. run_monad.
  destruct (run_result _) as [text|e];
    [| cbn; split; [done |]; split; [right; eauto | discriminate]].
  destruct (HumanMessage input) as [human|e];
    [| cbn; split; [done |]; split; [right; eauto | discriminate]].
  destruct (AIMessage (VStr text)) as [ai|e];
    [| cbn; split; [done |]; split; [right; eauto | discriminate]].
  run_monad. rewrite Hmem. cbn. split; [done |]. split; [right; eauto | eauto].
Qed.

(** Every outcome of the answer step: it appends at most the assistant's
    message, and only after exactly one call of the model on an assigned
    prompt. *)
Lemma respond_outcome (chain : ConversationChain) (fpo : option PyVal) (w : World)
    (ms : list Message) :
  messages (session w) = Some ms →
  let r := respond llm chain fpo w in
  (messages (session r.2) = Some ms
   ∧ (llm_calls r.2 = llm_calls w ∨ ∃ c, llm_calls r.2 = llm_calls w ++ [c]))
  ∨ (∃ m c, role m = "assistant" ∧ messages (session r.2) = Some (ms ++ [m])
       ∧ llm_calls r.2 = llm_calls w ++ [c] ∧ r.1 = Ok tt ∧ is_Some fpo).
Proof.
  intros Hms r. subst r. unfold respond, generate_response. run_monad. rewrite Hms.
  destruct (last ms) as [final|]; run_monad; [| left; split; [done | left; done]].
  destruct (negb _); run_monad; [| left; split; [done | left; done]].
  destruct fpo as [fpv|]; [| left; split; [done | left; done]].
  match goal with
  | |- context [ConversationChain_invoke llm chain ?i ?h ?w0] =>
      pose proof (invoke_outcome chain i h w0) as (Hm & Hc & Hok);
      destruct (ConversationChain_invoke llm chain i h w0) as [[v|e] w1]
  end; cbn in Hm, Hc, Hok.
  - run_monad. rewrite Hm, Hms. right. destruct (Hok v eq_refl) as [c Hc'].
    exists {| role := "assistant"; content := v; images := None |}, c. cbn.
    split; [reflexivity |]. split; [reflexivity |].
    split; [exact Hc' |]. split; [reflexivity | eauto].
  - left. cbn [fst snd]. split; [congruence | exact Hc].
Qed.

(** Every outcome of a run, from a session whose message log exists. *)
Lemma main_outcome (inp : Inputs) (w : World) (ms : list Message) :
  messages (session w) = Some ms →
  let r := run_main inp w in
  ∃ added calls,
    messages (session r.2) = Some (ms ++ added)
    ∧ llm_calls r.2 = llm_calls w ++ calls
    ∧ (role <$> added = [] ∨ role <$> added = ["user"]
       ∨ role <$> added = ["user"; "assistant"])
    ∧ (length calls ≤ 1)%nat
    ∧ (role <$> added = ["user"; "assistant"] → length calls = 1%nat ∧ r.1 = Ok tt).
Proof.
  intros Hms r. subst r. unfold main. rewrite bind_run.
  pose proof (main_setup_frame models Image_open inp w) as [F1 C1].
  destruct (main_setup models Image_open inp w) as [[[cm chain]|e] w1];
    cbn in F1, C1.
  2:{ exists [], []. rewrite !app_nil_r. cbn.
      destruct F1 as [F1 | [F1 _]]; [| congruence].
      split; [congruence |]. split; [done |]. split; [left; done |].
      split; [lia | discriminate]. }
  assert (Hms1 : messages (session w1) = Some ms)
    by (destruct F1 as [F1 | [F1 _]]; congruence).
  rewrite bind_run.
  pose proof (stage_prompt_outcome cm (in_uploaded inp) (in_prompt inp) w1 ms Hms1)
    as [C2 F2].
  destruct (stage cm (in_uploaded inp) (in_prompt inp) w1) as [r2 w2];
    cbn [fst snd] in C2, F2.
  pose proof (normalize_memory_frame w2) as [F3 C3].
  destruct F2 as [(fpv & m & -> & Hm & Hms2) | [Hnot Hs2]].
  - (* a user message was appended *)
    rewrite bind_run.
    destruct (normalize_memory w2) as [[[]|e] w3]; cbn in F3, C3.
    2:{ exists [m], []. rewrite app_nil_r. cbn. rewrite Hm.
        split; [congruence |]. split; [congruence |]. split; [right; left; done |].
        split; [lia | discriminate]. }
    assert (Hms3 : messages (session w3) = Some (ms ++ [m])) by congruence.
    destruct (respond_outcome chain (Some fpv) w3 _ Hms3)
      as [[Hsame Hc] | (a & c & Ha & Hadd & Hc & Hok & _)].
    + destruct Hc as [Hc | [c Hc]].
      * exists [m], []. rewrite app_nil_r. cbn. rewrite Hm.
        split; [exact Hsame |]. split; [congruence |]. split; [right; left; done |].
        split; [lia | discriminate].
      * exists [m], [c]. cbn. rewrite Hm.
        split; [exact Hsame |]. split; [congruence |]. split; [right; left; done |].
        split; [lia | discriminate].
    + exists [m; a], [c]. cbn. rewrite Hm, Ha.
      split; [rewrite Hadd, <- app_assoc; done |]. split; [congruence |].
      split; [right; right; done |]. split; [lia |]. intros _. split; [done | exact Hok].
  - (* nothing was staged *)
    exists [], []. rewrite !app_nil_r.
    assert (Hend : ∀ w', same_log w2 w' →
              messages (session w') = Some ms ∧ llm_calls w' = llm_calls w).
    { intros w' [Hm' Hc']. split; congruence. }
    assert (Hres : ∀ P : Prop, P → P ∧ (role <$> [] = [] ∨ role <$> [] = ["user"]
                        ∨ role <$> ([] : list Message) = ["user"; "assistant"])).
    { intros P HP. split; [exact HP | left; done]. }
    destruct r2 as [fpo|e].
    2:{ cbn. destruct (Hend w2 ltac:(reflexivity)) as [Ha Hb].
        split; [exact Ha |]. split; [exact Hb |]. split; [left; done |].
        split; [lia | discriminate]. }
    destruct fpo as [fpv|]; [exfalso; exact (Hnot fpv eq_refl) |].
    rewrite bind_run.
    destruct (normalize_memory w2) as [[[]|e] w3]; cbn in F3, C3.
    2:{ cbn. destruct (Hend w3 (conj F3 C3)) as [Ha Hb].
        split; [exact Ha |]. split; [exact Hb |]. split; [left; done |].
        split; [lia | discriminate]. }
    pose proof (respond_unassigned_frame llm chain w3) as [F4 C4].
    destruct (Hend (respond llm chain None w3).2) as [Ha Hb].
    { split; [rewrite F4 | rewrite C4]; assumption. }
    split; [exact Ha |]. split; [exact Hb |]. split; [left; done |].
    split; [cbn; lia | discriminate].
Qed.

(** X19: one run adds at most one turn.  Whatever the inputs and whether
    the run returns or raises, the message log it finds is a prefix of the
    log it leaves; what it adds is nothing, one user message, or one user
    message followed by one assistant message; and it calls the model at
    most once, exactly once when it adds the assistant's message. *)
Theorem run_adds_at_most_one_turn (inp : Inputs) (w : World) (ms : list Message) :
  messages (session w) = Some ms →
  let r := run_main inp w in
  ∃ added calls,
    messages (session r.2) = Some (ms ++ added)
    ∧ llm_calls r.2 = llm_calls w ++ calls
    ∧ (role <$> added = [] ∨ role <$> added = ["user"]
       ∨ role <$> added = ["user"; "assistant"])
    ∧ (length calls ≤ 1)%nat
    ∧ (role <$> added = ["user"; "assistant"] → length calls = 1%nat ∧ r.1 = Ok tt).
Proof. exact (main_outcome inp w ms). Qed.

(** X21: the greeting stays first: a run of the script on a session whose
    message log starts with the greeting leaves a log that starts with the
    greeting, whatever the inputs and whether the run returns or raises. *)
Theorem greeting_stays_first (inp : Inputs) (w : World) (ms : list Message) :
  messages (session w) = Some (INIT_MESSAGE :: ms) →
  ∃ ms', messages (session (run_main inp w).2) = Some (INIT_MESSAGE :: ms')
    ∧ (length ms ≤ length ms')%nat.
Proof.
  intros Hms.
  destruct (main_outcome inp w _ Hms) as (added & calls & Hafter & _).
  exists (ms ++ added). split; [exact Hafter |]. rewrite length_app. lia.
Qed.

(** *** What a run never replaces *)

#[local] Instance keys_kept_preorder : PreOrder keys_kept.
Proof.
  split.
  - intros w. split; intros k Hk; exact Hk.
  - intros a b c [H1 H2] [H3 H4]. split; intros k Hk; eauto.
Qed.

Lemma only_ui_keys_kept (w w' : World) : only_ui w w' → keys_kept w w'.
Proof. intros [Hs _]. unfold keys_kept. rewrite Hs. split; intros k Hk; exact Hk. Qed.

#[local] Hint Resolve only_ui_keys_kept : frame.

(** An entry created when absent: [if key not in st.session_state: ...]. *)
Lemma preserves_created_entry {A B} (field : SessionState → option A)
    (f : SessionState → SessionState) (k : M B) :
  (∀ w, field (session w) = None → keys_kept w (with_session f w)) →
  preserves keys_kept k →
  preserves keys_kept
    (get_session ≫= fun s =>
       (if field s is None then modify_session f else mret tt) ≫= fun _ => k).
Proof.
  intros Hf Hk w. run_monad.
  destruct (field (session w)) eqn:Hfield; run_monad.
  - specialize (Hk w). destruct (k w) as [[b|e] w']; exact Hk.
  - specialize (Hk (with_session f w)). specialize (Hf w Hfield).
    unfold with_session in *.
    destruct (k _) as [[b|e] w']; cbn in Hk; (etransitivity; [exact Hf | exact Hk]).
Qed.

Ltac keeps_keys :=
  repeat first
    [ frame_step
    | apply preserves_modify_session; intros ?; split; intros ? Hk; exact Hk ].

Lemma stream_tokens_keys (h : StreamHandler) (tokens : list string) :
  preserves keys_kept (stream_tokens h tokens).
Proof.
  intros w. destruct (stream_tokens_run h tokens w) as [h' ->].
  apply only_ui_keys_kept. split; reflexivity.
Qed.

Lemma respond_keys (chain : ConversationChain) (fpo : option PyVal) :
  preserves keys_kept (respond llm chain fpo).
Proof.
  unfold respond, generate_response, ConversationChain_invoke, append_message,
    read_messages, read_langchain_messages.
  keeps_keys.
  - intros w. split; intros k Hk; exact Hk.
  - apply stream_tokens_keys.
Qed.

Lemma stage_prompt_keys (cm : ChatModel) (files : list UploadedFile)
    (prompt : option string) :
  preserves keys_kept (stage cm files prompt).
Proof.
  unfold stage_prompt, append_message, read_messages. keeps_keys.
  all: eapply preserves_weaken; [| apply display_uploaded_images_frame];
    auto with frame.
Qed.

Lemma normalize_memory_keys : preserves keys_kept normalize_memory.
Proof. unfold normalize_memory, read_langchain_messages. keeps_keys. Qed.

Lemma main_setup_keys (inp : Inputs) :
  preserves keys_kept (main_setup models Image_open inp).
Proof.
  unfold main_setup.
  apply (preserves_created_entry widget_key).
  { intros w Hnone. split; intros k Hk; [congruence | exact Hk]. }
  apply preserves_bind; [tc_solve | |].
  { intros w. destruct (widget_key (session w)) as [key|] eqn:Hkey.
    - rewrite render_sidebar_world by (rewrite Hkey; eauto).
      split; intros k Hk; exact Hk.
    - rewrite render_sidebar_unkeyed by exact Hkey. reflexivity. }
  intros [kwargs mw].
  apply preserves_bind; [tc_solve | apply preserves_get_session; tc_solve |].
  intros s.
  apply preserves_bind; [tc_solve | |].
  { unfold init_conversationchain. keeps_keys. }
  intros chain.
  apply (preserves_created_entry file_uploader_key).
  { intros w Hnone. split; intros k Hk; [exact Hk | congruence]. }
  keeps_keys.
  eapply preserves_weaken; [| apply display_chat_messages_frame]. auto with frame.
Qed.

(** X20: a run never replaces the widget key or the upload epoch: once
    either is set, every run of the script, whatever the inputs and whether
    it returns or raises, leaves it as it was (only "New Chat" draws a new
    upload epoch). *)
Theorem run_keeps_the_widget_keys (inp : Inputs) (w : World) :
  let w' := (run_main inp w).2 in
  (∀ k, widget_key (session w) = Some k → widget_key (session w') = Some k)
  ∧ (∀ k, file_uploader_key (session w) = Some k →
          file_uploader_key (session w') = Some k).
Proof.
  assert (H : preserves keys_kept (run_main inp)); [| exact (H w)].
  unfold main.
  apply preserves_bind; [tc_solve | apply main_setup_keys |]. intros [cm chain].
  apply preserves_bind; [tc_solve | apply stage_prompt_keys |]. intros fpo.
  apply preserves_bind; [tc_solve | apply normalize_memory_keys |]. intros _.
  apply respond_keys.
Qed.

(** X22: uploads without a prompt, when they decode and are re-encoded
    without error, are only previewed: their thumbnails are drawn in a user
    bubble, in upload order, but no message is appended, no identifier is
    consumed and [formatted_prompt] stays unassigned. *)
Theorem uploads_without_prompt_are_previewed (cm : ChatModel)
    (files : list UploadedFile) (prompt : option string) (w : World)
    (ms : list Message) (datas : list (list Byte.byte)) :
  messages (session w) = Some ms →
  (length (consumed_ids ms) < length files)%nat →
  mapM (reencoded Image_open Image_save) (unconsumed (consumed_ids ms) files)
    = Some datas →
  submitted prompt = None →
  stage cm files prompt w
  = (Ok None,
     with_ui (UiChatMessage "user" :: thumbnails 0 (unconsumed (consumed_ids ms) files))
       w).
Proof.
  intros Hms Hgate Himgs Hp.
  unfold stage_prompt. run_monad. rewrite Hms.
  rewrite (upload_gate_open _ _ Hgate). run_monad.
  rewrite (display_uploaded_images_run _ _ _ _ _ _ datas Himgs).
  rewrite Hp. unfold with_ui. run_monad. rewrite <- app_assoc. reflexivity.
Qed.

(** X23: consumed uploads are not sent again: when the files of the upload
    widget have distinct identifiers and all of them are already carried by
    user messages, a new prompt is appended as a text-only message, though
    the files are still in the widget. *)
Theorem consumed_uploads_are_not_sent_again (cm : ChatModel)
    (files : list UploadedFile) (prompt : option string) (p : string) (w : World)
    (ms : list Message) :
  messages (session w) = Some ms →
  NoDup (file_id <$> files) →
  unconsumed (consumed_ids ms) files = [] →
  submitted prompt = Some p →
  stage cm files prompt w
  = (Ok (Some (format_prompt cm p)),
     {| session :=
          set_messages
            (Some (ms ++ [{| role := "user"; content := format_prompt cm p;
                             images := None |}]))
            (session w);
        ui := ui w ++ [UiChatMessage "user"; UiMarkdown (VStr p)];
        llm_calls := llm_calls w |}).
Proof.
  intros Hms Hdup Hnone Hp. apply stage_prompt_text_only; [exact Hms | | exact Hp].
  rewrite <- (length_fmap file_id files).
  apply submseteq_length, NoDup_submseteq; [exact Hdup |].
  intros id Hid. apply list_elem_of_fmap in Hid as (f & -> & Hf).
  destruct (decide (file_id f ∈ consumed_ids ms)) as [Hin | Hnot]; [exact Hin |].
  exfalso. exact (filter_nil_not_elem_of _ _ f Hnone Hnot Hf).
Qed.

(** X24: a completed turn is remembered: when the model call of a run
    returns, the memory log the run leaves is the normalized log it found
    followed by the two entries of the exchange, the user's turn and the
    assistant's text. *)
Theorem completed_turn_is_remembered (inp : Inputs) (w w1 w2 w3 : World)
    (cm : ChatModel) (chain : ConversationChain) (fpv : PyVal) (turn : LcMessage) :
  main_setup models Image_open inp w = (Ok (cm, chain), w1) →
  stage cm (in_uploaded inp) (in_prompt inp) w1 = (Ok (Some fpv), w2) →
  normalize_memory w2 = (Ok tt, w3) →
  HumanMessage fpv = Ok turn →
  ∃ mem,
    langchain_messages (session w3) = Some mem
    ∧ ∀ text,
        run_result (llm cm (window (chain_k chain) mem ++ [turn])) = Ok text →
        langchain_messages (session (run_main inp w).2)
        = Some (mem ++ exchange fpv text)
        ∧ (langchain_messages (session (run_main inp w).2) ≫= last)
          = Some {| lc_type := "ai"; lc_content := VStr text |}.
Proof.
  intros H1 H2 H3 Hturn.
  destruct (turn_run models format_prompt llm Image_open Image_save inp w w1 w2 w3
              cm chain fpv turn H1 H2 H3 Hturn)
    as (ms & imgs & mem & kwargs & k & _ & _ & Hmem & _ & _ & Hchain & Hmain).
  cbv zeta in Hmain. exists mem. split; [exact Hmem |].
  intros text Hrun. rewrite Hchain in Hrun. cbn [chain_k] in Hrun.
  rewrite Hmain, Hrun. cbn [snd session langchain_messages set_messages
                              set_langchain_messages].
  split; [reflexivity |]. unfold exchange. cbn [mbind option_bind].
  change (mem ++ [ {| lc_type := "human"; lc_content := turn_input fpv |};
                   {| lc_type := "ai"; lc_content := VStr text |} ])
    with (mem ++ [ {| lc_type := "human"; lc_content := turn_input fpv |} ]
              ++ [ {| lc_type := "ai"; lc_content := VStr text |} ]).
  rewrite app_assoc. apply last_snoc.
Qed.

End Coverage.

(** ** Memory bridge *)

Lemma format_message_type (m m' : LcMessage) :
  format_message m = Ok m' → lc_type m' = lc_type m.
Proof.
  unfold format_message. intros H.
  destruct (lc_content m) as [| | | | |l| |] eqn:Hc; try (injection H as <-; done).
  destruct (py_first (VList l)) as [first|]; [| discriminate]. cbn in H.
  destruct (py_contains "role" first) as [[|]|]; cbn in H;
    [| injection H as <-; done | discriminate].
  destruct (String.eqb (lc_type m) "ai") eqn:Hai.
  - apply String.eqb_eq in Hai.
    destruct (py_item "content" first) as [c|]; [| discriminate]. cbn in H.
    destruct (AIMessage c) as [m1|] eqn:Hnew; [| discriminate]. cbn in H.
    apply new_message_content in Hnew as [Hty _].
    rewrite Hty in H. cbn in H. injection H as <-. congruence.
  - cbn in H. destruct (String.eqb (lc_type m) "human") eqn:Hhu.
    + apply String.eqb_eq in Hhu. rewrite Hc in H.
      destruct (py_first (VList l)) as [first1|]; [| discriminate]. cbn in H.
      destruct (py_item "content" first1) as [c|]; [| discriminate]. cbn in H.
      destruct (HumanMessage c) as [m1|] eqn:Hnew; [| discriminate].
      injection H as <-. apply new_message_content in Hnew as [Hty _]. congruence.
    + injection H as <-. reflexivity.
Qed.

(** X8: normalization keeps the shape of the memory log: whether it returns
    or raises, the list it leaves has the same length as before and every
    entry keeps its message type (a human turn stays a human turn). *)
Theorem normalization_keeps_length_and_types (ms : list LcMessage) :
  length (langchain_messages_format ms).1 = length ms
  ∧ lc_type <$> (langchain_messages_format ms).1 = lc_type <$> ms.
Proof.
  induction ms as [|m ms [IHl IHt]]; [split; reflexivity |].
  cbn. destruct (format_message m) as [m'|e] eqn:Hfmt; [| split; reflexivity].
  destruct (langchain_messages_format ms) as [rest err]. cbn in *.
  rewrite IHl, IHt, (format_message_type m m' Hfmt). split; reflexivity.
Qed.

(** X9: a memory log whose entries all have a plain content (a string, or a
    block sequence whose first block carries no role marker) is returned
    unchanged, without an exception. *)
Theorem normalization_leaves_plain_log (ms : list LcMessage) :
  Forall (fun m => plain (lc_content m) = true) ms →
  langchain_messages_format ms = (ms, None).
Proof.
  induction 1 as [|m ms Hm _ IH]; [reflexivity |].
  cbn. rewrite (format_message_plain m Hm), IH. reflexivity.
Qed.

Lemma langchain_messages_format_app (a b a' : list LcMessage) :
  langchain_messages_format a = (a', None) →
  langchain_messages_format (a ++ b)
  = (a' ++ (langchain_messages_format b).1, (langchain_messages_format b).2).
Proof.
  revert a'. induction a as [|m a IH]; intros a' H.
  - cbn in H. injection H as <-. cbn. destruct (langchain_messages_format b).
    reflexivity.
  - cbn in H |- *. destruct (format_message m) as [m'|e]; [| discriminate].
    destruct (langchain_messages_format a) as [rest err] eqn:Ha.
    injection H as <- ->. rewrite (IH rest eq_refl). reflexivity.
Qed.

(** X10: the exchange that a completed turn saves to the memory log is
    normalized by the next run into the plain pair: the human message that
    holds the formatted prompt itself (the message the model was shown), and
    the assistant's text; the entries before it are normalized as they would
    be alone. *)
Theorem saved_exchange_is_normalized (mem mem' : list LcMessage) (fpv : PyVal)
    (text : string) (turn : LcMessage) :
  langchain_messages_format mem = (mem', None) →
  HumanMessage fpv = Ok turn →
  langchain_messages_format (mem ++ exchange fpv text)
  = (mem' ++ [turn; {| lc_type := "ai"; lc_content := VStr text |}], None)
  ∧ lc_content turn = fpv.
Proof.
  intros Hmem Hturn. split; [| exact (proj2 (new_message_content _ _ _ Hturn))].
  rewrite (langchain_messages_format_app mem _ mem' Hmem).
  unfold exchange, turn_input. cbn. rewrite Hturn. reflexivity.
Qed.

(** X11: when normalization raises, the exception is the one of the first
    entry that cannot be rewritten; the entries before it have been
    rewritten in the list, and that entry and all the entries after it are
    left as they were. *)
Theorem normalization_failure_is_partial (ms out : list LcMessage) (e : Exn) :
  langchain_messages_format ms = (out, Some e) →
  ∃ pre pre' m post,
    ms = pre ++ m :: post
    ∧ langchain_messages_format pre = (pre', None)
    ∧ format_message m = Raise e
    ∧ out = pre' ++ m :: post.
Proof.
  revert out. induction ms as [|m ms IH]; intros out H; [discriminate |].
  cbn in H. destruct (format_message m) as [m'|e'] eqn:Hfmt.
  - destruct (langchain_messages_format ms) as [rest err] eqn:Hrest.
    injection H as <- ->.
    destruct (IH rest eq_refl) as (pre & pre' & m0 & post & -> & Hpre & Hm0 & ->).
    exists (m :: pre), (m' :: pre'), m0, post. cbn. rewrite Hfmt, Hpre. done.
  - injection H as <- <-. exists [], [], m, ms. done.
Qed.

(** ** The streaming callback *)

Lemma string_app_assoc (a b c : string) : (a +:+ b) +:+ c = a +:+ (b +:+ c).
Proof.
  induction a as [|x a IH]; [reflexivity |].
  change (String x ((a +:+ b) +:+ c) = String x (a +:+ (b +:+ c))).
  f_equal. exact IH.
Qed.

Lemma string_app_empty (a : string) : a +:+ "" = a.
Proof.
  induction a as [|x a IH]; [reflexivity |].
  change (String x (a +:+ "") = String x a). f_equal. exact IH.
Qed.

(** X14: the stream handler accumulates: after a stream its text is the
    text it had followed by all the tokens in arrival order; the container
    was redrawn once per token, and the last redraw shows the whole text. *)
Theorem stream_handler_accumulates (h : StreamHandler) (tokens : list string)
    (w : World) :
  stream_tokens h tokens w
  = (Ok {| sh_text := sh_text h +:+ joined tokens |},
     with_ui (UiStream <$> buffers (sh_text h) tokens) w)
  ∧ length (buffers (sh_text h) tokens) = length tokens
  ∧ (tokens ≠ [] →
     last (buffers (sh_text h) tokens) = Some (sh_text h +:+ joined tokens)).
Proof.
  split; [| split].
  - revert h w. induction tokens as [|t ts IH]; intros h w.
    + cbn. rewrite string_app_empty. destruct h, w. unfold with_ui. cbn.
      rewrite app_nil_r. reflexivity.
    + cbn [stream_tokens buffers joined foldr]. unfold on_llm_new_token.
      run_monad. rewrite IH. cbn [sh_text]. unfold with_ui.
      cbn [session ui llm_calls]. rewrite string_app_assoc, fmap_cons, <- app_assoc.
      reflexivity.
  - generalize (sh_text h). induction tokens as [|t ts IH]; intros acc; cbn;
      [reflexivity |]. by rewrite IH.
  - destruct tokens as [|t ts]; [done |]. intros _.
    generalize (sh_text h). revert t.
    induction ts as [|t' ts IH]; intros t acc.
    + cbn [buffers last joined foldr]. rewrite string_app_empty. reflexivity.
    + change (last ((acc +:+ t) :: buffers (acc +:+ t) (t' :: ts))
              = Some (acc +:+ (t +:+ joined (t' :: ts)))).
      change (buffers (acc +:+ t) (t' :: ts))
        with (((acc +:+ t) +:+ t') :: buffers ((acc +:+ t) +:+ t') ts).
      rewrite last_cons_cons.
      change (((acc +:+ t) +:+ t') :: buffers ((acc +:+ t) +:+ t') ts)
        with (buffers (acc +:+ t) (t' :: ts)).
      rewrite (IH t' (acc +:+ t)), string_app_assoc. reflexivity.
Qed.

(** ** More statements on the sample deployment *)

Lemma tracker_returns_unconsumed_in_order_witness :
  (display_uploaded_images sample_open sample_save [png_upload; jpeg_upload]
     ["f1"] [] initial_world).1
  = Ok ([image_block "/9j/"], ["f2"]).
Proof.
  destruct (tracker_returns_unconsumed_in_order sample_open sample_save
              [png_upload; jpeg_upload] ["f1"] [] initial_world
              [file_bytes jpeg_upload] eq_refl)
    as [Hrun _].
  rewrite Hrun. reflexivity.
Defined.

Lemma tracker_grid_wraps_at_ten_witness :
  ui (display_uploaded_images sample_open sample_save twelve_uploads [] []
        initial_world).2 !! 11%nat
  = Some (UiImage "11" 1).
Proof.
  assert (Hdatas : mapM (reencoded sample_open sample_save)
                     (unconsumed [] twelve_uploads)
                   = Some (file_bytes <$> twelve_uploads))
    by (vm_compute; reflexivity).
  exact (proj1 (tracker_grid_wraps_at_ten sample_open sample_save twelve_uploads
                  [] [] initial_world _ 11
                  {| file_id := "11"; file_type := "image/jpeg";
                     file_bytes := [Byte.xff; Byte.xd8] |}
                  Hdatas eq_refl)).
Defined.

Lemma tracker_raises_at_undecodable_witness :
  display_uploaded_images strict_open strict_save
    ([png_upload] ++ broken_upload :: [jpeg_upload]) [] [] initial_world
  = (Raise (UnidentifiedImageError "f3"),
     with_ui (thumbnails 0 (unconsumed [] [png_upload])) initial_world)
  ∧ display_uploaded_images strict_open strict_save
      ([png_upload] ++ truncated_upload :: [jpeg_upload]) [] [] initial_world
    = (Raise (OSError "f4"),
       with_ui (thumbnails 0 (unconsumed [] [png_upload])) initial_world).
Proof.
  assert (Hbroken : file_id broken_upload ∉ ([] : list string))
    by (apply not_elem_of_nil).
  assert (Htruncated : file_id truncated_upload ∉ ([] : list string))
    by (apply not_elem_of_nil).
  split.
  - exact (tracker_raises_at_undecodable strict_open strict_save [png_upload]
             [jpeg_upload] broken_upload [] [] initial_world
             [file_bytes png_upload] eq_refl Hbroken eq_refl).
  - exact (tracker_raises_at_undecodable strict_open strict_save [png_upload]
             [jpeg_upload] truncated_upload [] [] initial_world
             [file_bytes png_upload] eq_refl Htruncated eq_refl).
Defined.

Lemma staged_message_carries_uploads_witness :
  (messages (session
     (stage_prompt sample_format_prompt sample_open sample_save sample_chat_model
        [png_upload] (Some "What is this?") fresh_world).2) ≫= last)
  = Some {| role := "user";
            content := VList [VDict [("type", VStr "text");
                                     ("text", VStr "What is this?")];
                              image_block "iVBORw=="];
            images := Some ["f1"] |}.
Proof.
  assert (Hgate : (length (consumed_ids [INIT_MESSAGE]) < length [png_upload])%nat)
    by (cbn; lia).
  rewrite (staged_message_carries_uploads sample_format_prompt sample_open sample_save
             sample_chat_model [png_upload] (Some "What is this?") "What is this?"
             fresh_world [INIT_MESSAGE] [file_bytes png_upload]
             [VDict [("type", VStr "text"); ("text", VStr "What is this?")]]
             eq_refl Hgate eq_refl eq_refl eq_refl).
  reflexivity.
Defined.

Lemma staged_message_without_uploads_witness :
  (messages (session
     (stage_prompt sample_format_prompt sample_open sample_save sample_chat_model
        [jpeg_upload] (Some "And this?") attached_world).2) ≫= last)
  = Some {| role := "user";
            content := VList [VDict [("type", VStr "text");
                                     ("text", VStr "And this?")]];
            images := None |}.
Proof.
  assert (Hgate : (length [jpeg_upload]
                   ≤ length (consumed_ids
                               (default [] (messages (session attached_world)))))%nat)
    by (cbn; lia).
  rewrite (staged_message_without_uploads sample_format_prompt sample_open sample_save
             sample_chat_model [jpeg_upload] (Some "And this?") "And this?"
             attached_world _ eq_refl Hgate eq_refl).
  reflexivity.
Defined.

Lemma staged_text_cannot_take_blocks_witness :
  (stage_prompt text_format_prompt sample_open sample_save sample_chat_model
     [png_upload] (Some "What is this?") fresh_world).1
  = Raise (AttributeError "append").
Proof.
  assert (Hgate : (length (consumed_ids [INIT_MESSAGE]) < length [png_upload])%nat)
    by (cbn; lia).
  assert (Hfmt : ∀ blocks, text_format_prompt sample_chat_model "What is this?"
                           ≠ VList blocks) by (intros blocks H; discriminate H).
  exact (proj1 (staged_text_cannot_take_blocks text_format_prompt sample_open
                  sample_save sample_chat_model [png_upload] (Some "What is this?")
                  "What is this?" fresh_world [INIT_MESSAGE]
                  (file_bytes png_upload) []
                  eq_refl Hgate eq_refl eq_refl Hfmt)).
Defined.

Lemma uploads_without_prompt_are_previewed_witness :
  stage_prompt sample_format_prompt sample_open sample_save sample_chat_model
    [png_upload] None fresh_world
  = (Ok None, with_ui [UiChatMessage "user"; UiImage "f1" 0] fresh_world).
Proof.
  assert (Hgate : (length (consumed_ids [INIT_MESSAGE]) < length [png_upload])%nat)
    by (cbn; lia).
  exact (uploads_without_prompt_are_previewed sample_format_prompt sample_open
           sample_save sample_chat_model [png_upload] None fresh_world [INIT_MESSAGE]
           [file_bytes png_upload]
           eq_refl Hgate eq_refl eq_refl).
Defined.

Lemma consumed_uploads_are_not_sent_again_witness :
  (stage_prompt sample_format_prompt sample_open sample_save sample_chat_model
     [png_upload] (Some "And now?") attached_world).1
  = Ok (Some (VList [VDict [("type", VStr "text"); ("text", VStr "And now?")]])).
Proof.
  assert (Hdup : NoDup (file_id <$> [png_upload]))
    by (apply NoDup_singleton).
  rewrite (consumed_uploads_are_not_sent_again sample_format_prompt sample_open
             sample_save sample_chat_model [png_upload] (Some "And now?") "And now?"
             attached_world _ eq_refl Hdup eq_refl eq_refl).
  reflexivity.
Defined.

Lemma normalization_leaves_plain_log_witness :
  langchain_messages_format
    [hello_turn_message; {| lc_type := "ai"; lc_content := VStr "Hi there" |}]
  = ([hello_turn_message; {| lc_type := "ai"; lc_content := VStr "Hi there" |}], None).
Proof.
  apply normalization_leaves_plain_log. repeat constructor.
Defined.

Lemma saved_exchange_is_normalized_witness :
  langchain_messages_format ([] ++ exchange hello_prompt "Hi there")
  = ([] ++ [hello_turn_message; {| lc_type := "ai"; lc_content := VStr "Hi there" |}],
     None).
Proof.
  exact (proj1 (saved_exchange_is_normalized [] [] hello_prompt "Hi there"
                  hello_turn_message eq_refl eq_refl)).
Defined.

Lemma normalization_failure_is_partial_witness :
  let tagged := {| lc_type := "human"; lc_content := turn_input hello_prompt |} in
  let empty := {| lc_type := "ai"; lc_content := VList [] |} in
  ∃ pre pre' m post,
    [tagged; empty; tagged] = pre ++ m :: post
    ∧ langchain_messages_format pre = (pre', None)
    ∧ format_message m = Raise IndexError
    ∧ [hello_turn_message; empty; tagged] = pre' ++ m :: post.
Proof.
  intros tagged empty.
  exact (normalization_failure_is_partial [tagged; empty; tagged]
           [hello_turn_message; empty; tagged] IndexError eq_refl).
Defined.


Lemma parameters_hold_the_sampling_fields_witness :
  dom sample_kwargs
  = ({[ "temperature"; "top_p"; "top_k"; "max_tokens" ]} : gset string)
    ∪ {[ "system" ]}.
Proof.
  exact (proj1 (parameters_hold_the_sampling_fields sample_models untouched
                  claude_config sample_kwargs (VInt 10) eq_refl sample_parameters)).
Defined.

Lemma unknown_model_stops_the_run_witness :
  (main [] sample_format_prompt sample_llm sample_open sample_save hello_inputs
     initial_world).1
  = Raise (KeyError "None")
  ∧ messages (session
      (main [] sample_format_prompt sample_llm sample_open sample_save hello_inputs
         initial_world).2) = None.
Proof.
  destruct (unknown_model_stops_the_run [] sample_format_prompt sample_llm sample_open
              sample_save hello_inputs initial_world (KeyError "None") eq_refl)
    as (H1 & H2 & _).
  split; [exact H1 | exact H2].
Defined.

Lemma first_run_creates_the_session_witness :
  session (main sample_models sample_format_prompt sample_llm sample_open sample_save
             idle_inputs initial_world).2
  = {| widget_key := Some "424242"; model_name := Some "claude-3";
       messages := Some [INIT_MESSAGE]; langchain_messages := Some [];
       file_uploader_key := Some 0%Z |}.
Proof.
  rewrite (first_run_creates_the_session sample_models sample_format_prompt sample_llm
             sample_open sample_save idle_inputs initial_world sample_kwargs 10
             eq_refl eq_refl eq_refl sample_parameters).
  vm_compute. reflexivity.
Defined.

Lemma new_chat_discards_the_conversation_witness :
  messages (session
    (click_new_chat sample_models sample_format_prompt sample_llm sample_open
       sample_save 7 idle_inputs attached_world).2)
  = Some [INIT_MESSAGE].
Proof.
  exact (proj1 (new_chat_discards_the_conversation sample_models sample_format_prompt
                  sample_llm sample_open sample_save 7 idle_inputs attached_world
                  eq_refl)).
Defined.

Lemma run_adds_at_most_one_turn_witness :
  ∃ added calls,
    messages (session
      (main sample_models sample_format_prompt sample_llm sample_open sample_save
         hello_inputs fresh_world).2) = Some ([INIT_MESSAGE] ++ added)
    ∧ llm_calls
        (main sample_models sample_format_prompt sample_llm sample_open sample_save
           hello_inputs fresh_world).2 = llm_calls fresh_world ++ calls
    ∧ (length calls ≤ 1)%nat.
Proof.
  destruct (run_adds_at_most_one_turn sample_models sample_format_prompt sample_llm
              sample_open sample_save hello_inputs fresh_world [INIT_MESSAGE] eq_refl)
    as (added & calls & H1 & H2 & _ & H4 & _).
  exists added, calls. split; [exact H1 |]. split; [exact H2 | exact H4].
Defined.

Lemma greeting_stays_first_witness :
  ∃ ms',
    messages (session
      (main sample_models sample_format_prompt failing_llm sample_open sample_save
         hello_inputs fresh_world).2) = Some (INIT_MESSAGE :: ms').
Proof.
  destruct (greeting_stays_first sample_models sample_format_prompt failing_llm
              sample_open sample_save hello_inputs fresh_world [] eq_refl)
    as (ms' & H & _).
  exists ms'. exact H.
Defined.

Lemma completed_turn_is_remembered_witness :
  langchain_messages (session
    (main sample_models sample_format_prompt sample_llm sample_open sample_save
       hello_inputs fresh_world).2)
  = Some (exchange hello_prompt "Hi there").
Proof.
  destruct (completed_turn_is_remembered sample_models sample_format_prompt sample_llm
              sample_open sample_save hello_inputs fresh_world _ _ _
              sample_chat_model sample_chain hello_prompt hello_turn_message
              sample_setup sample_stage sample_normalize eq_refl)
    as (mem & Hmem & Hturn).
  assert (Hm : mem = []).
  { vm_compute in Hmem. injection Hmem as Hm. symmetry. exact Hm. }
  subst mem.
  exact (proj1 (Hturn "Hi there" eq_refl)).
Defined.
